(** * go-mapbox: the geocoding client (v6), its request options and helpers

    A shallow embedding of [lib/geocode] (the geocoding module), of the
    error values of [lib/base/errors.go] and of the start-up sequence of the
    example program, together with the properties the specification states
    about them.

    Layout:
    - [GoStrings], [GoFmt], [url], [query]: the parts of the Go libraries the
      geocoding module calls ([strings.Join], the [%f] verb, [url.Values],
      [query.Values] of go-querystring);
    - [base]: the error values, the data of the base package and the calls
      into the base client, recorded in a log of outbound calls;
    - [geocode]: the module itself, function by function;
    - [example]: the token check of the example program;
    - the theorems. *)

From Stdlib Require Import ZArith NArith String Ascii List Bool Lia.
From Stdlib Require Import Floats.PrimFloat Floats.FloatOps Floats.SpecFloat.
From stdpp Require Import gmap strings list pretty sorting.

Local Open Scope string_scope.
Local Open Scope list_scope.
Set Warnings "-inexact-float".

(** Go's [float64] is IEEE 754 binary64, which is what Rocq's primitive
    floats are. *)
Abbreviation float64 := PrimFloat.float (only parsing).

(** Go's [uint] (the [Limit] fields): the module never computes with it, it
    only tests it against zero and prints it, so no wrap-around can occur. *)
Abbreviation uint := N (only parsing).

(* ------------------------------------------------------------------ *)
(** ** Package [strings] *)

Module GoStrings.

(** [strings.Join(elems, sep)]. *)
Definition Join (elems : list string) (sep : string) : string :=
  String.concat sep elems.

(** [strings.Cut(s, sep)] for a one-byte separator: the text before the
    first [sep], the text after it, and whether [sep] occurs. *)
Fixpoint Cut (s : string) (sep : ascii) : string * string * bool :=
  match s with
  | EmptyString => (EmptyString, EmptyString, false)
  | String c rest =>
      if Ascii.eqb c sep then (EmptyString, rest, true)
      else let '(before, after, found) := Cut rest sep in
           (String c before, after, found)
  end.

(** [strings.Contains(s, sep)] for a one-byte [sep]. *)
Fixpoint ContainsByte (s : string) (sep : ascii) : bool :=
  match s with
  | EmptyString => false
  | String c rest => Ascii.eqb c sep || ContainsByte rest sep
  end.

(** The successive pieces [Cut] peels off a string, as the loop
    [for query != "" { key, query, _ = strings.Cut(query, "&") ... }]
    visits them. *)
Fixpoint pieces (s : string) (sep : ascii) : list string :=
  match s with
  | EmptyString => []
  | String c rest =>
      if Ascii.eqb c sep then EmptyString :: pieces rest sep
      else match pieces rest sep with
           | [] => [String c EmptyString]
           | p :: ps => String c p :: ps
           end
  end.

End GoStrings.

(* ------------------------------------------------------------------ *)
(** ** Package [fmt]: the verbs the module uses *)

Module GoFmt.

(** [n] written with exactly six decimal digits (for [n < 10^6]). *)
Definition pad6 (n : N) : string :=
  let s := pretty n in
  String.concat "" (replicate (6 - String.length s) "0") +:+ s.

(** The integer nearest to [m * 2^e], ties to the even one. *)
Definition round_half_even (m : Z) (e : Z) : Z :=
  if (0 <=? e)%Z then (m * 2 ^ e)%Z
  else
    let den := (2 ^ (- e))%Z in
    let q := (m / den)%Z in
    let r := (m mod den)%Z in
    if (den <? 2 * r)%Z then (q + 1)%Z
    else if (2 * r =? den)%Z then (if Z.odd q then q + 1 else q)%Z
    else q.

(** [fmt.Sprintf("%f", x)]: six digits after the point, the exact binary
    value rounded to nearest (ties to even), as [strconv] does for the
    ['f'] format with a given precision. *)
Definition Sprintf_f (x : float64) : string :=
  match Prim2SF x with
  | S754_nan => "NaN"
  | S754_infinity false => "+Inf"
  | S754_infinity true => "-Inf"
  | S754_zero s => (if s then "-" else "") +:+ "0.000000"
  | S754_finite s m e =>
      let n := Z.to_N (round_half_even (Z.pos m * 1000000) e) in
      (if s then "-" else "") +:+
      pretty (n / 1000000)%N +:+ "." +:+ pad6 (n mod 1000000)%N
  end.

(** [fmt.Sprint] of a [bool] ([strconv.FormatBool]). *)
Definition Sprint_bool (b : bool) : string := if b then "true" else "false".

(** [fmt.Sprint] of a [uint]: decimal, no sign, no padding. *)
Definition Sprint_uint (n : uint) : string := pretty n.

End GoFmt.

(* ------------------------------------------------------------------ *)
(** ** Package [net/url]: query values and their wire form *)

Module url.

(** [url.Values] is [map[string][]string]. *)
Abbreviation Values := (gmap string (list string)).

(** The errors of [ParseQuery]. *)
Inductive parseError : Type :=
| EscapeError        (* "invalid URL escape" *)
| InvalidSemicolon.  (* "invalid semicolon separator in query" *)

(** [v.Set(key, value)]: replaces whatever [key] held. *)
Definition Set_ (v : Values) (key value : string) : Values :=
  <[key := [value]]> v.

(** [v.Add(key, value)]: appends to the values of [key]. *)
Definition Add (v : Values) (key value : string) : Values :=
  <[key := (default [] (v !! key) ++ [value])%list]> v.

(** ['lo' <= c && c <= 'hi']. *)
Definition byte_in (lo hi c : ascii) : bool :=
  (N_of_ascii lo <=? N_of_ascii c)%N && (N_of_ascii c <=? N_of_ascii hi)%N.

(** [shouldEscape(c, encodeQueryComponent)]: everything but the unreserved
    characters is escaped in a query component. *)
Definition shouldEscape (c : ascii) : bool :=
  negb (byte_in "a" "z" c || byte_in "A" "Z" c || byte_in "0" "9" c
        || Ascii.eqb c "-" || Ascii.eqb c "_" || Ascii.eqb c "."
        || Ascii.eqb c "~").

(** ["0123456789ABCDEF"[d]]. *)
Definition upperhex (d : N) : ascii :=
  if (d <? 10)%N then ascii_of_N (48 + d) else ascii_of_N (55 + d).

Definition ishex (c : ascii) : bool :=
  byte_in "0" "9" c || byte_in "a" "f" c || byte_in "A" "F" c.

Definition unhex (c : ascii) : N :=
  if byte_in "0" "9" c then (N_of_ascii c - 48)%N
  else if byte_in "a" "f" c then (N_of_ascii c - 97 + 10)%N
  else if byte_in "A" "F" c then (N_of_ascii c - 65 + 10)%N
  else 0%N.

(** [url.QueryEscape]. *)
Fixpoint QueryEscape (s : string) : string :=
  match s with
  | EmptyString => EmptyString
  | String c rest =>
      if shouldEscape c then
        if Ascii.eqb c " " then String "+" (QueryEscape rest)
        else String "%" (String (upperhex (N_of_ascii c / 16))
               (String (upperhex (N_of_ascii c mod 16)) (QueryEscape rest)))
      else String c (QueryEscape rest)
  end.

(** [url.QueryUnescape]; [None] is the [EscapeError] result. *)
Fixpoint QueryUnescape (s : string) : option string :=
  match s with
  | EmptyString => Some EmptyString
  | String c rest =>
      if Ascii.eqb c "%" then
        match rest with
        | String h (String l rest') =>
            if ishex h && ishex l
            then String (ascii_of_N (unhex h * 16 + unhex l)) <$> QueryUnescape rest'
            else None
        | _ => None
        end
      else if Ascii.eqb c "+" then String " " <$> QueryUnescape rest
      else String c <$> QueryUnescape rest
  end.

(** The [key=value] pairs of [v] in the order [Encode] writes them: keys
    sorted bytewise, the values of one key in their stored order. *)
Definition pairs (v : Values) : list (string * string) :=
  flat_map (fun k => (fun x => (k, x)) <$> default [] (v !! k))
           (merge_sort String.le (elements (dom v))).

Definition writePair (kx : string * string) : string :=
  QueryEscape kx.1 +:+ "=" +:+ QueryEscape kx.2.

(** [v.Encode()]: the pairs joined by ['&'] (the buffer gets a ['&'] before
    every pair but the first). *)
Definition Encode (v : Values) : string :=
  GoStrings.Join (writePair <$> pairs v) "&".

(** [m[key] = append(m[key], value)] for a pair, as the parsing loop does
    it. *)
Definition addPair (m : Values) (kx : string * string) : Values :=
  Add m kx.1 kx.2.

(** One turn of the loop of [parseQuery] on the piece [key] cut off the
    query. *)
Definition parseStep (acc : Values * option parseError) (key : string)
  : Values * option parseError :=
  let '(m, err) := acc in
  if GoStrings.ContainsByte key ";" then (m, Some InvalidSemicolon)
  else if bool_decide (key = "") then (m, err)
  else
    let '(key, value, _) := GoStrings.Cut key "=" in
    match QueryUnescape key with
    | None => (m, if err is None then Some EscapeError else err)
    | Some key1 =>
        match QueryUnescape value with
        | None => (m, if err is None then Some EscapeError else err)
        | Some value1 => (addPair m (key1, value1), err)
        end
    end.

(** [url.ParseQuery(query)]: the values parsed and the first error met. *)
Definition ParseQuery (query : string) : Values * option parseError :=
  foldl parseStep (∅, None) (GoStrings.pieces query "&").

End url.

(* ------------------------------------------------------------------ *)
(** ** Go's [error] values *)

(** An [error] made by [errors.New] or [fmt.Errorf]; the module only passes
    errors on and compares them with [nil], which is [None] here. *)
Record error : Type := errors_New { Error : string }.

(* ------------------------------------------------------------------ *)
(** ** Package [github.com/google/go-querystring/query] *)

Module query.

(** The kinds of field the option structs of the module have. *)
Inductive fieldValue : Type :=
| VString (s : string)
| VBool (b : bool)
| VUint (n : uint).

(** A struct field as reflection shows it to [query.Values]: the name in
    its [url:"name,omitempty"] tag, whether the tag has [omitempty], and
    the value. *)
Record field : Type := Field { name : string; omitempty : bool; value : fieldValue }.

(** The argument of [query.Values], an [interface{}]. *)
Inductive input : Type :=
| NilPointer                          (* a nil pointer to a struct *)
| StructPointer (fields : list field) (* a pointer to a struct *)
| NotAStruct.                         (* anything else *)

(** A pointer [req] to a struct whose tagged fields are [fields]. *)
Definition ofPointer {T} (fields : T -> list field) (req : option T) : input :=
  match req with
  | None => NilPointer
  | Some r => StructPointer (fields r)
  end.

(** [isEmptyValue]: the zero value of the kind. *)
Definition isEmptyValue (v : fieldValue) : bool :=
  match v with
  | VString s => bool_decide (String.length s = 0)
  | VBool b => negb b
  | VUint n => (n =? 0)%N
  end.

(** [valueString]: [fmt.Sprint] of the value. *)
Definition valueString (v : fieldValue) : string :=
  match v with
  | VString s => s
  | VBool b => GoFmt.Sprint_bool b
  | VUint n => GoFmt.Sprint_uint n
  end.

(** [reflectValue]: the fields in declaration order; a field tagged
    [omitempty] that holds the zero value is skipped, any other is added
    under its name. *)
Definition reflectValue (values : url.Values) (fields : list field) : url.Values :=
  foldl (fun vs f =>
           if omitempty f && isEmptyValue (value f) then vs
           else url.Add vs (name f) (valueString (value f)))
        values fields.

(** [query.Values(v)]: a nil pointer gives empty values, a struct its
    fields, anything else the error "expects struct input" (and a nil
    map, which reads as the empty one). *)
Definition Values (v : input) : url.Values * option error :=
  match v with
  | NilPointer => (∅, None)
  | StructPointer fields => (reflectValue ∅ fields, None)
  | NotAStruct => (∅, Some (errors_New "query: Values() expects struct input"))
  end.

End query.

(* ------------------------------------------------------------------ *)
(** ** Outcomes and the log of outbound calls *)

(** A Go call returns or panics. *)
Inductive result (A : Type) : Type :=
| Returned (a : A)
| Panicked (why : string).
Arguments Returned {A} a.
Arguments Panicked {A} why.

(* ------------------------------------------------------------------ *)
(** ** Package [lib/base] *)

Module base.

(** [errors.go]. *)
Definition ErrorAPIUnauthorized : error :=
  errors_New "Mapbox API error unauthorized".
Definition ErrorAPILimitExceeded : error :=
  errors_New "Mapbox API error api rate limit exceeded".

(** Modelled from the spec: the missing-token error of section 7 ("a local
    precondition failure before any network call"); [errors.go] does not
    declare it and the spec does not fix its text. *)
Definition ErrorMissingToken : error :=
  errors_New "Mapbox API token not found".

(** Modelled from the spec: the data of section 3; the declarations are
    not among the sources. A location is a (longitude, latitude) pair, a
    bounding box a sequence of floats (west, south, east, north) whose
    length the module tests, a feature has coordinates and named
    properties, a collection a type tag and its features in order. *)
Record Location : Type := { Longitude : float64; Latitude : float64 }.

Abbreviation BoundingBox := (list float64).

Record Feature : Type :=
  { Coordinates : list float64; Properties : gmap string string }.

Record FeatureCollection : Type :=
  { Type_ : string; Features : list Feature }.

Section Client.

(** The body of a request is an [interface{}] for the base client; the
    geocoding module sends a slice of batch queries. *)
Context {Body : Type}.

(** One call into the base client: [QueryBase(path, &v, &resp)] or
    [QueryWithBodyBase(path, &v, body, &resp)]. By section 4.1 each is
    one outbound HTTP call. *)
Inductive Call : Type :=
| Query (path : string) (v : url.Values)
| QueryWithBody (path : string) (v : url.Values) (body : Body).

(** What one call brings back: the answer as it decodes into a response
    that embeds a feature collection ([None]: the pointer stays nil), as
    it decodes into a batch response, and the error. *)
Record Reply : Type :=
  { collection : option FeatureCollection;
    batch : list FeatureCollection;
    err : option error }.

(** Modelled from the spec: the HTTP layer of the base client, which
    section 9 wants substitutable by a test double. It answers a call
    knowing the calls made before. *)
Definition Transport : Type := list Call -> Call -> Reply.

(** Modelled from the spec: the base client holds the token (section 2);
    its declaration is not among the sources. *)
Record Base : Type := { token : string; transport : Transport }.

(** A computation that may call out: it extends the log of calls and
    returns or panics. *)
Definition IO (A : Type) : Type := list Call -> result A * list Call.

Definition ret {A} (a : A) : IO A := fun log => (Returned a, log).

Definition bind {A B} (m : IO A) (k : A -> IO B) : IO B :=
  fun log =>
    match m log with
    | (Returned a, log') => k a log'
    | (Panicked why, log') => (Panicked why, log')
    end.

Definition panic {A} (why : string) : IO A := fun log => (Panicked why, log).

(** Modelled from the spec: [NewBase(token)], by the contract of section
    4.1, [new(token) -> Client | fails if token empty]. *)
Definition NewBase (net : Transport) (token : string)
  : IO (option Base * option error) :=
  if bool_decide (token = "") then ret (None, Some ErrorMissingToken)
  else ret (Some {| token := token; transport := net |}, None).

(** Modelled from the spec: [b.QueryBase(path, &v, &resp)] for a response
    that embeds a [*FeatureCollection]: one outbound call; the decoded
    collection is stored in the response and the error returned. *)
Definition QueryBase (b : Base) (path : string) (v : url.Values)
  : IO (option FeatureCollection * option error) :=
  fun log =>
    let r := transport b log (Query path v) in
    (Returned (collection r, err r), (log ++ [Query path v])%list).

(** Modelled from the spec: [b.QueryWithBodyBase(path, &v, body, &resp)]
    for a batch response. *)
Definition QueryWithBodyBase (b : Base) (path : string) (v : url.Values)
  (body : Body) : IO (list FeatureCollection * option error) :=
  fun log =>
    let r := transport b log (QueryWithBody path v body) in
    (Returned (batch r, err r), (log ++ [QueryWithBody path v body])%list).

End Client.

Arguments Call : clear implicits.
Arguments Reply : clear implicits.
Arguments Transport : clear implicits.
Arguments Base : clear implicits.
Arguments IO : clear implicits.

End base.

Notation "'let*' x ':=' m 'in' k" := (base.bind m (fun x => k))
  (at level 10, x pattern, m at level 100, k at level 200, only parsing).

(* ------------------------------------------------------------------ *)
(** ** Package [lib/geocode] *)

Module geocode.

Import query.

Definition apiName : string := "search".
Definition apiVersion : string := "geocode/v6".

(** [type Type string] and its constants. *)
Abbreviation Type_ := string (only parsing).

Definition Country : Type_ := "country".
Definition Region : Type_ := "region".
Definition Postcode : Type_ := "postcode".
Definition District : Type_ := "district".
Definition Place : Type_ := "place".
Definition Locality : Type_ := "locality".
Definition Neighborhood : Type_ := "neighborhood".
Definition Street : Type_ := "street".
Definition Block : Type_ := "block".
Definition Address : Type_ := "address".
Definition SecondaryAddress : Type_ := "secondary_address".

(** [ForwardRequestOpts], its zero value [ForwardRequestOpts{}] and its
    fields with their [url] tags, in declaration order. *)
Module ForwardRequestOpts.
Record t : Type := Build
  { Country : string;
    Proximity : string;
    Types : string;
    Autocomplete : bool;
    BBox : string;
    Limit : uint;
    Language : string;
    Worldview : string;
    Format : string;
    Permanent : bool }.

Definition zero : t := Build "" "" "" false "" 0 "" "" "" false.

Definition fields (r : t) : list field :=
  [ Field "country" true (VString (Country r));
    Field "proximity" true (VString (Proximity r));
    Field "types" true (VString (Types r));
    Field "autocomplete" true (VBool (Autocomplete r));
    Field "bbox" true (VString (BBox r));
    Field "limit" true (VUint (Limit r));
    Field "language" true (VString (Language r));
    Field "worldview" true (VString (Worldview r));
    Field "format" true (VString (Format r));
    Field "permanent" true (VBool (Permanent r)) ].

(** [req.Types = s], [req.Proximity = s], [req.BBox = s],
    [req.Permanent = b]. *)
Definition set_Types (s : string) (r : t) : t :=
  Build (Country r) (Proximity r) s (Autocomplete r) (BBox r) (Limit r)
        (Language r) (Worldview r) (Format r) (Permanent r).
Definition set_Proximity (s : string) (r : t) : t :=
  Build (Country r) s (Types r) (Autocomplete r) (BBox r) (Limit r)
        (Language r) (Worldview r) (Format r) (Permanent r).
Definition set_BBox (s : string) (r : t) : t :=
  Build (Country r) (Proximity r) (Types r) (Autocomplete r) s (Limit r)
        (Language r) (Worldview r) (Format r) (Permanent r).
Definition set_Permanent (b : bool) (r : t) : t :=
  Build (Country r) (Proximity r) (Types r) (Autocomplete r) (BBox r)
        (Limit r) (Language r) (Worldview r) (Format r) b.
End ForwardRequestOpts.

(** [StructuredInputOpts]. *)
Module StructuredInputOpts.
Record t : Type := Build
  { AddressLine1 : string;
    AddressNumber : string;
    Street : string;
    Block : string;
    Place : string;
    Region : string;
    Postcode : string;
    Locality : string;
    Neighborhood : string;
    Country : string;
    Autocomplete : bool;
    BBox : string;
    Format : string;
    Language : string;
    Limit : uint;
    Proximity : string;
    Types : string;
    Worldview : string;
    Permanent : bool }.

Definition zero : t :=
  Build "" "" "" "" "" "" "" "" "" "" false "" "" "" 0 "" "" "" false.

Definition fields (r : t) : list field :=
  [ Field "address_line1" true (VString (AddressLine1 r));
    Field "address_number" true (VString (AddressNumber r));
    Field "street" true (VString (Street r));
    Field "block" true (VString (Block r));
    Field "place" true (VString (Place r));
    Field "region" true (VString (Region r));
    Field "postcode" true (VString (Postcode r));
    Field "locality" true (VString (Locality r));
    Field "neighborhood" true (VString (Neighborhood r));
    Field "country" true (VString (Country r));
    Field "autocomplete" true (VBool (Autocomplete r));
    Field "bbox" true (VString (BBox r));
    Field "format" true (VString (Format r));
    Field "language" true (VString (Language r));
    Field "limit" true (VUint (Limit r));
    Field "proximity" true (VString (Proximity r));
    Field "types" true (VString (Types r));
    Field "worldview" true (VString (Worldview r));
    Field "permanent" true (VBool (Permanent r)) ].
End StructuredInputOpts.

(** [ReverseRequestOpts]. *)
Module ReverseRequestOpts.
Record t : Type := Build
  { Types : string;
    Limit : uint;
    Country : string;
    Language : string;
    Worldview : string;
    Permanent : bool }.

Definition zero : t := Build "" 0 "" "" "" false.

Definition fields (r : t) : list field :=
  [ Field "types" true (VString (Types r));
    Field "limit" true (VUint (Limit r));
    Field "country" true (VString (Country r));
    Field "language" true (VString (Language r));
    Field "worldview" true (VString (Worldview r));
    Field "permanent" true (VBool (Permanent r)) ].

(** [req.Types = s]. *)
Definition set_Types (s : string) (r : t) : t :=
  Build s (Limit r) (Country r) (Language r) (Worldview r) (Permanent r).
End ReverseRequestOpts.

(** [BatchQuery]: one query of a batch; it travels in the request body
    ([Limit] is an [int] here). *)
Module BatchQuery.
Record t : Type := Build
  { Q : string;
    Types : string;
    BBox : string;
    Limit : Z;
    Country : string;
    Language : string;
    AddressLine1 : string;
    AddressNumber : string;
    Street : string;
    Block : string;
    Place : string;
    Region : string;
    Postcode : string;
    Locality : string;
    Neighborhood : string;
    Longitude : float64;
    Latitude : float64;
    Autocomplete : bool;
    Proximity : string;
    Worldview : string;
    Format : string }.

Definition zero : t :=
  Build "" "" "" 0 "" "" "" "" "" "" "" "" "" "" "" 0%float 0%float
        false "" "" "".
End BatchQuery.

(** [BatchRequestOpts]. *)
Module BatchRequestOpts.
Record t : Type := Build { Permanent : bool }.

Definition zero : t := Build false.

Definition fields (r : t) : list field :=
  [ Field "permanent" true (VBool (Permanent r)) ].
End BatchRequestOpts.

(** The responses: [ForwardResponse] and [ReverseResponse] embed a
    [*base.FeatureCollection], [BatchResponse] holds a slice of
    collections. *)
Record ForwardResponse : Type :=
  { Forward_FeatureCollection : option base.FeatureCollection }.
Record ReverseResponse : Type :=
  { Reverse_FeatureCollection : option base.FeatureCollection }.
Record BatchResponse : Type :=
  { Batch_ : list base.FeatureCollection }.

(** The geocoding module calls the base client with bodies of this type. *)
Abbreviation Body := (list BatchQuery.t).
Abbreviation IO := (base.IO Body).

(** [Geocode], the wrapper instance, and [NewGeocode]. *)
Record Geocode : Type := { base_ : base.Base Body }.

Definition NewGeocode (b : base.Base Body) : Geocode := {| base_ := b |}.

(** The struct a wrapper's [req] points to when it returns: the wrappers
    write through the pointer, so they return it next to their results;
    for a nil [req] it is the struct the wrapper allocated. *)
Definition Results (Opts Resp : Type) : Type :=
  (Opts * (option Resp * option error))%type.

Section Operations.

(** [strconv.FormatFloat(x, 'f', -1, 64)], the shortest decimal text that
    reads back as [x]: a function of the Go library, kept as a
    parameter. *)
Variable FormatFloat : float64 -> string.

(** [Forward]: geocode lookup using search text. *)
Definition Forward (g : Geocode) (place : string)
  (req : option ForwardRequestOpts.t)
  : IO (option ForwardResponse * option error) :=
  let req := if req is None then Some ForwardRequestOpts.zero else req in
  let '(v, err) := query.Values (ofPointer ForwardRequestOpts.fields req) in
  if err is Some e then base.ret (None, Some e)
  else
    let v := url.Set_ v "q" place in
    let* (fc, err) :=
      base.QueryBase (base_ g) (apiName +:+ "/" +:+ apiVersion +:+ "/forward") v in
    base.ret (Some {| Forward_FeatureCollection := fc |}, err).

(** [ForwardStructured]: lookup using structured input; it has no nil
    check, a nil [req] goes to [query.Values] as it is. *)
Definition ForwardStructured (g : Geocode)
  (req : option StructuredInputOpts.t)
  : IO (option ForwardResponse * option error) :=
  let '(v, err) := query.Values (ofPointer StructuredInputOpts.fields req) in
  if err is Some e then base.ret (None, Some e)
  else
    let* (fc, err) :=
      base.QueryBase (base_ g) (apiName +:+ "/" +:+ apiVersion +:+ "/forward") v in
    base.ret (Some {| Forward_FeatureCollection := fc |}, err).

(** [Reverse]: finds place names from a location; [loc] is dereferenced
    after the options are marshalled. *)
Definition Reverse (g : Geocode) (loc : option base.Location)
  (req : option ReverseRequestOpts.t)
  : IO (option ReverseResponse * option error) :=
  let req := if req is None then Some ReverseRequestOpts.zero else req in
  let '(v, err) := query.Values (ofPointer ReverseRequestOpts.fields req) in
  if err is Some e then base.ret (None, Some e)
  else
    match loc with
    | None => base.panic "nil pointer dereference"
    | Some l =>
        let v := url.Set_ v "longitude" (FormatFloat (base.Longitude l)) in
        let v := url.Set_ v "latitude" (FormatFloat (base.Latitude l)) in
        let* (fc, err) :=
          base.QueryBase (base_ g) (apiName +:+ "/" +:+ apiVersion +:+ "/reverse") v in
        base.ret (Some {| Reverse_FeatureCollection := fc |}, err)
    end.

(** [Batch]: the queries go into the body as they are. *)
Definition Batch (g : Geocode) (queries : list BatchQuery.t)
  (req : option BatchRequestOpts.t)
  : IO (option BatchResponse * option error) :=
  let req := if req is None then Some BatchRequestOpts.zero else req in
  let '(queryValues, err) := query.Values (ofPointer BatchRequestOpts.fields req) in
  if err is Some e then base.ret (None, Some e)
  else
    let* (batch, err) :=
      base.QueryWithBodyBase (base_ g) (apiName +:+ "/" +:+ apiVersion +:+ "/batch")
                             queryValues queries in
    base.ret (Some {| Batch_ := batch |}, err).

(** [typesToString]: the names, comma-separated. *)
Definition typesToString (types : list Type_) : string :=
  if bool_decide (length types = 0) then ""
  else
    let stringTypes := (fun t : Type_ => (t : string)) <$> types in
    GoStrings.Join stringTypes ",".

(** [proximityToString]: [fmt.Sprintf("%f,%f", proximity[0], proximity[1])]
    for a slice of length 2, the empty string for any other. *)
Definition proximityToString (proximity : list float64) : string :=
  match proximity with
  | [p0; p1] => GoFmt.Sprintf_f p0 +:+ "," +:+ GoFmt.Sprintf_f p1
  | _ => ""
  end.

(** [bboxToString]: the four numbers for a slice of length 4. *)
Definition bboxToString (bbox : base.BoundingBox) : string :=
  match bbox with
  | [b0; b1; b2; b3] =>
      GoFmt.Sprintf_f b0 +:+ "," +:+ GoFmt.Sprintf_f b1 +:+ "," +:+
      GoFmt.Sprintf_f b2 +:+ "," +:+ GoFmt.Sprintf_f b3
  | _ => ""
  end.

(** [ForwardWithTypes]. *)
Definition ForwardWithTypes (g : Geocode) (place : string)
  (types : list Type_) (req : option ForwardRequestOpts.t)
  : IO (Results ForwardRequestOpts.t ForwardResponse) :=
  let req := if req is Some r then r else ForwardRequestOpts.zero in
  let req :=
    if bool_decide (0 < length types)
    then ForwardRequestOpts.set_Types (typesToString types) req
    else req in
  let* res := Forward g place (Some req) in
  base.ret (req, res).

(** [ForwardWithProximity]. *)
Definition ForwardWithProximity (g : Geocode) (place : string)
  (proximity : list float64) (req : option ForwardRequestOpts.t)
  : IO (Results ForwardRequestOpts.t ForwardResponse) :=
  let req := if req is Some r then r else ForwardRequestOpts.zero in
  let req :=
    if bool_decide (length proximity = 2)
    then ForwardRequestOpts.set_Proximity (proximityToString proximity) req
    else req in
  let* res := Forward g place (Some req) in
  base.ret (req, res).

(** [ForwardWithBBox]. *)
Definition ForwardWithBBox (g : Geocode) (place : string)
  (bbox : base.BoundingBox) (req : option ForwardRequestOpts.t)
  : IO (Results ForwardRequestOpts.t ForwardResponse) :=
  let req := if req is Some r then r else ForwardRequestOpts.zero in
  let req :=
    if bool_decide (length bbox = 4)
    then ForwardRequestOpts.set_BBox (bboxToString bbox) req
    else req in
  let* res := Forward g place (Some req) in
  base.ret (req, res).

(** [ReverseWithTypes]. *)
Definition ReverseWithTypes (g : Geocode) (loc : option base.Location)
  (types : list Type_) (req : option ReverseRequestOpts.t)
  : IO (Results ReverseRequestOpts.t ReverseResponse) :=
  let req := if req is Some r then r else ReverseRequestOpts.zero in
  let req :=
    if bool_decide (0 < length types)
    then ReverseRequestOpts.set_Types (typesToString types) req
    else req in
  let* res := Reverse g loc (Some req) in
  base.ret (req, res).

(** [ForwardLegacy]: [permanent] is the variadic tail. *)
Definition ForwardLegacy (g : Geocode) (place : string)
  (req : option ForwardRequestOpts.t) (permanent : list bool)
  : IO (Results ForwardRequestOpts.t ForwardResponse) :=
  let req := if req is Some r then r else ForwardRequestOpts.zero in
  let req :=
    if bool_decide (0 < length permanent) && default false (permanent !! 0%nat)
    then ForwardRequestOpts.set_Permanent true req
    else req in
  let* res := Forward g place (Some req) in
  base.ret (req, res).

(** [ReverseLegacy]. *)
Definition ReverseLegacy (g : Geocode) (loc : option base.Location)
  (req : option ReverseRequestOpts.t)
  : IO (option ReverseResponse * option error) :=
  Reverse g loc req.

End Operations.

End geocode.

(* ------------------------------------------------------------------ *)
(** ** The example program: how it obtains its client *)

Module example.

Import geocode.

(** [os.Getenv(key)]: the value of the variable, empty when it is unset. *)
Definition Getenv (env : gmap string string) (key : string) : string :=
  default "" (env !! key).

(** The first steps of [main]: read the token, stop with [log.Fatal] when
    it is empty, create the base client, stop when that fails, create the
    geocoding client. [inl msg] is the exit through [log.Fatal]. *)
Definition main_client (net : base.Transport Body) (env : gmap string string)
  : IO (string + Geocode) :=
  let token := Getenv env "MAPBOX_TOKEN" in
  if bool_decide (token = "")
  then base.ret (inl "MAPBOX_TOKEN environment variable is required")
  else
    let* (b, err) := base.NewBase net token in
    match err, b with
    | Some e, _ => base.ret (inl ("Failed to create base client:" +:+ Error e))
    | None, Some b => base.ret (inr (NewGeocode b))
    | None, None => base.panic "nil pointer dereference"
    end.

(** The options of [forwardWithOptionsExample], which sets
    [Autocomplete: false] in so many words, of [permanentGeocodingExample]
    and of the test "Can geocode" ([reqOpt.Limit = 1]). *)
Definition forward_opts : ForwardRequestOpts.t :=
  ForwardRequestOpts.Build "us" "" "address" false "" 5 "en" "us" "" false.

Definition permanent_opts : ForwardRequestOpts.t :=
  ForwardRequestOpts.Build "us" "" "" false "" 1 "" "" "" true.

Definition limit_1_opts : ForwardRequestOpts.t :=
  ForwardRequestOpts.Build "" "" "" false "" 1 "" "" "" false.

(** The three queries of [batchGeocodingExample]: a forward query, a
    reverse query, a structured one. *)
Definition batch_queries : list BatchQuery.t :=
  [ BatchQuery.Build "New York City" "place" "" 1 "us" ""
                     "" "" "" "" "" "" "" "" ""
                     0%float 0%float false "" "" "";
    BatchQuery.Build "" "address" "" 0 "" ""
                     "" "" "" "" "" "" "" "" ""
                     (-73.986136)%float (40.748895)%float false "" "" "";
    BatchQuery.Build "" "" "" 0 "us" ""
                     "" "123" "Main Street" "" "Boston" "MA" "" "" ""
                     0%float 0%float false "" "" "" ].

End example.

(* ------------------------------------------------------------------ *)
(** ** Test doubles for the HTTP layer *)

Import geocode.

Definition a_feature (name : string) : base.Feature :=
  {| base.Coordinates := [(-77.036556)%float; (38.897708)%float];
     base.Properties := {[ "name" := name ]} |}.

(** A layer that ignores the request: every answer decodes to the same two
    features and to the same two batch entries. *)
Definition fixed_net : base.Transport Body :=
  fun _ _ =>
    let fc := {| base.Type_ := "FeatureCollection";
                 base.Features := [a_feature "first"; a_feature "second"] |} in
    {| base.collection := Some fc; base.batch := [fc; fc]; base.err := None |}.

(** A layer that answers a batch with one collection per query, in order,
    and honours [limit=1]. *)
Definition faithful_net : base.Transport Body :=
  fun _ call =>
    match call with
    | base.Query _ v =>
        let feats := [a_feature "first"; a_feature "second"] in
        {| base.collection :=
             Some {| base.Type_ := "FeatureCollection";
                     base.Features :=
                       if bool_decide (v !! "limit" = Some ["1"])
                       then take 1 feats else feats |};
           base.batch := [];
           base.err := None |}
    | base.QueryWithBody _ _ body =>
        {| base.collection := None;
           base.batch :=
             (fun q => {| base.Type_ := "FeatureCollection";
                          base.Features := [a_feature (BatchQuery.Q q)] |}) <$> body;
           base.err := None |}
    end.

Definition client (net : base.Transport Body) : Geocode :=
  NewGeocode {| base.token := "pk.test"; base.transport := net |}.

(** ** Vocabulary of the statements *)

(** A wrapper's results from the struct [r] its [req] points to at return
    and a call of the primitive it delegates to. *)
Definition returns_with {Opts Resp : Type} (r : Opts)
  (m : IO (option Resp * option error)) : IO (Results Opts Resp) :=
  let* res := m in base.ret (r, res).

(** The query values of a call into the base client. *)
Definition values_of (c : base.Call Body) : url.Values :=
  match c with
  | base.Query _ v => v
  | base.QueryWithBody _ v _ => v
  end.

(** The query string of a call, as the geocoding module hands its values to
    the base client (which adds the token), and the values of key [k] a
    reader of that string finds ([None]: the key is absent). *)
Definition query_string (c : base.Call Body) : string :=
  url.Encode (values_of c).

Definition sent_param (c : base.Call Body) (k : string) : option (list string) :=
  (url.ParseQuery (query_string c)).1 !! k.

(** The values the options struct [fields] marshals to. *)
Definition marshal (fields : list query.field) : url.Values :=
  query.reflectValue ∅ fields.

(** The call each primitive makes. *)
Definition forward_call (place : string) (r : ForwardRequestOpts.t) : base.Call Body :=
  base.Query "search/geocode/v6/forward"
             (url.Set_ (marshal (ForwardRequestOpts.fields r)) "q" place).

Definition structured_call (req : option StructuredInputOpts.t) : base.Call Body :=
  base.Query "search/geocode/v6/forward"
             (if req is Some r then marshal (StructuredInputOpts.fields r) else ∅).

Definition reverse_call (FormatFloat : float64 -> string) (l : base.Location)
  (r : ReverseRequestOpts.t) : base.Call Body :=
  base.Query "search/geocode/v6/reverse"
    (url.Set_ (url.Set_ (marshal (ReverseRequestOpts.fields r))
                        "longitude" (FormatFloat (base.Longitude l)))
              "latitude" (FormatFloat (base.Latitude l))).

Definition batch_call (queries : list BatchQuery.t) (r : BatchRequestOpts.t)
  : base.Call Body :=
  base.QueryWithBody "search/geocode/v6/batch"
                     (marshal (BatchRequestOpts.fields r)) queries.

(** The call returned (it did not panic). *)
Definition returned {A : Type} (o : result A * list (base.Call Body)) : Prop :=
  match o.1 with
  | Returned _ => True
  | Panicked _ => False
  end.

(** What the last call an operation made sends under key [k]. *)
Definition sent_by {A : Type} (o : result A * list (base.Call Body)) (k : string)
  : option (list string) :=
  match last o.2 with
  | Some c => sent_param c k
  | None => None
  end.

(** The features an operation returned: those of the collection in its
    response, none when it returned no collection. *)
Definition features_of
  (o : result (option ForwardResponse * option error) * list (base.Call Body))
  : list base.Feature :=
  match o.1 with
  | Returned (Some {| Forward_FeatureCollection := Some fc |}, _) => base.Features fc
  | _ => []
  end.


(** Closes a decidable goal on closed data by evaluation. *)
Ltac decide_it := apply (bool_decide_unpack _); vm_compute; exact I.

(* ------------------------------------------------------------------ *)
(** ** The subtests of [geocode_test.go] *)

Module geocode_test.

Import geocode.

(** The three checks every subtest runs on what the call returned: [res]
    is the response pointer, inside it the embedded collection pointer.
    [t.Error] and [t.Errorf] record a failure and go on; reading
    [res.Type] through a nil pointer panics. The failures recorded are
    returned, the subtest passes when there is none. *)
Definition checks (res : option (option base.FeatureCollection))
  (err : option error) : IO (list string) :=
  let failed := if err is Some e then [Error e] else [] in
  match res with
  | Some (Some fc) =>
      let failed :=
        if bool_decide (base.Type_ fc <> "FeatureCollection")
        then failed ++ ["Invalid response type: " +:+ base.Type_ fc]
        else failed in
      let failed :=
        if bool_decide (length (base.Features fc) = 0)
        then failed ++ ["No features returned"]
        else failed in
      base.ret failed
  | _ => base.panic "nil pointer dereference"
  end.

(** "Can geocode". *)
Definition Can_geocode (g : Geocode) : IO (list string) :=
  let reqOpt := ForwardRequestOpts.Build "" "" "" false "" 1 "" "" "" false in
  let place := "2 lincoln memorial circle nw" in
  let* (res, err) := Forward g place (Some reqOpt) in
  checks (Forward_FeatureCollection <$> res) err.

(** "Can reverse geocode". *)
Definition Can_reverse_geocode (FormatFloat : float64 -> string) (g : Geocode)
  : IO (list string) :=
  let reqOpt := ReverseRequestOpts.Build "" 1 "" "" "" false in
  let loc := {| base.Longitude := 72.438939; base.Latitude := 34.074122 |} in
  let* (res, err) := Reverse FormatFloat g (Some loc) (Some reqOpt) in
  checks (Reverse_FeatureCollection <$> res) err.

(** "Can use structured input". *)
Definition Can_use_structured_input (g : Geocode) : IO (list string) :=
  let reqOpt :=
    StructuredInputOpts.Build "" "1600" "Pennsylvania Avenue NW" "" "Washington"
                              "DC" "" "" "" "US" false "" "" "" 1 "" "" "" false in
  let* (res, err) := ForwardStructured g (Some reqOpt) in
  checks (Forward_FeatureCollection <$> res) err.

(** "Can use permanent geocoding". *)
Definition Can_use_permanent_geocoding (g : Geocode) : IO (list string) :=
  let reqOpt := ForwardRequestOpts.Build "" "" "" false "" 1 "" "" "" true in
  let place := "2 lincoln memorial circle nw" in
  let* (res, err) := Forward g place (Some reqOpt) in
  checks (Forward_FeatureCollection <$> res) err.

End geocode_test.

(* ------------------------------------------------------------------ *)
(** ** More vocabulary *)

(** A layer whose every call fails: nothing is decoded. *)
Definition failing_net : base.Transport Body :=
  fun _ _ =>
    {| base.collection := None; base.batch := [];
       base.err := Some base.ErrorAPIUnauthorized |}.

(** The path and the body of a call. *)
Definition path_of (c : base.Call Body) : string :=
  match c with
  | base.Query path _ => path
  | base.QueryWithBody path _ _ => path
  end.

Definition body_of (c : base.Call Body) : option Body :=
  match c with
  | base.Query _ _ => None
  | base.QueryWithBody _ _ body => Some body
  end.

(** The operation outcome [o], started with [log], made exactly one call, to
    [path] with [body]. *)
Definition one_call {A : Type} (o : result A * list (base.Call Body))
  (log : list (base.Call Body)) (path : string) (body : option Body) : Prop :=
  exists c, o.2 = log ++ [c] /\ path_of c = path /\ body_of c = body.

(** The operation on client [g] returned a response, not nil, and beside it
    the very error of the one call it made. *)
Definition passes_call_error {R : Type} (g : Geocode)
  (o : result (option R * option error) * list (base.Call Body))
  (log : list (base.Call Body)) : Prop :=
  exists resp c,
    o.2 = log ++ [c]
    /\ o.1 = Returned (Some resp, base.err (base.transport (base_ g) log c)).

(** The texts the fields named [k] of an options struct contribute, in
    declaration order. *)
Definition sent_values (k : string) (fields : list query.field) : list string :=
  omap (fun f =>
          if bool_decide (query.name f = k)
             && negb (query.omitempty f && query.isEmptyValue (query.value f))
          then Some (query.valueString (query.value f))
          else None)
       fields.

(** The options struct a wrapper leaves behind its [req] pointer. *)
Definition struct_after {Opts Resp : Type}
  (o : result (Results Opts Resp) * list (base.Call Body)) : option Opts :=
  match o.1 with
  | Returned (r, _) => Some r
  | Panicked _ => None
  end.

(** The eleven [Type] constants the module declares. *)
Definition declared_types : list Type_ :=
  [Country; Region; Postcode; District; Place; Locality; Neighborhood;
   Street; Block; Address; SecondaryAddress].

(** A subtest passes on outcome [o]: it returned and recorded no failure. *)
Definition passes (o : result (list string) * list (base.Call Body)) : Prop :=
  o.1 = Returned [].

(** What the three checks of a subtest want of an answer: no error, a
    collection tagged "FeatureCollection", at least one feature. *)
Definition acceptable (answer : base.Reply) : Prop :=
  base.err answer = None
  /\ exists fc, base.collection answer = Some fc
               /\ base.Type_ fc = "FeatureCollection"
               /\ base.Features fc <> [].

(* ------------------------------------------------------------------ *)
(** * Properties *)

Import GoStrings query url.

(** ** The base client and the token *)

(** C1: creating the base client returns without any outbound call; with an
    empty token (which is also what a missing environment variable reads as)
    it returns no client and the missing-token error, with any other token a
    client holding that token and no error. *)
Theorem NewBase_fails_iff_token_empty
  (net : base.Transport Body) (token : string) (log : list (base.Call Body)) :
  exists b err,
    base.NewBase net token log = (Returned (b, err), log)
    /\ (token = "" -> b = None /\ err = Some base.ErrorMissingToken)
    /\ (token <> "" ->
        err = None /\ exists c, b = Some c /\ base.token c = token).
Proof.
  unfold base.NewBase. case_bool_decide as Htok.
  - exists None, (Some base.ErrorMissingToken).
    split; [reflexivity|]. split; [done|]. intros Hne. by destruct Hne.
  - eexists (Some _), None.
    split; [reflexivity|]. split; [intros He; by destruct Htok|].
    intros _. split; [done|]. eexists. split; reflexivity.
Qed.

(** The example program stops before creating any client, and before any
    outbound call, when the token variable is unset or empty. *)
Lemma main_client_without_token net env log :
  env !! "MAPBOX_TOKEN" = None \/ env !! "MAPBOX_TOKEN" = Some "" ->
  example.main_client net env log
  = (Returned (inl "MAPBOX_TOKEN environment variable is required"), log).
Proof.
  intros H. unfold example.main_client, example.Getenv.
  destruct H as [-> | ->]; reflexivity.
Qed.

Lemma main_client_with_token net env token log :
  env !! "MAPBOX_TOKEN" = Some token -> token <> "" ->
  example.main_client net env log
  = (Returned (inr (NewGeocode {| base.token := token; base.transport := net |})), log).
Proof.
  intros H Hne. unfold example.main_client, example.Getenv, base.NewBase.
  rewrite H. simpl. rewrite !bool_decide_false by done. reflexivity.
Qed.


(** ** What each primitive does: one call, its answer passed on *)

Lemma Forward_unfold g place req log :
  let c := forward_call place (default ForwardRequestOpts.zero req) in
  let r := base.transport (base_ g) log c in
  Forward g place req log
  = (Returned (Some {| Forward_FeatureCollection := base.collection r |}, base.err r),
     log ++ [c]).
Proof. destruct req; reflexivity. Qed.

Lemma ForwardStructured_unfold g req log :
  let c := structured_call req in
  let r := base.transport (base_ g) log c in
  ForwardStructured g req log
  = (Returned (Some {| Forward_FeatureCollection := base.collection r |}, base.err r),
     log ++ [c]).
Proof. destruct req; reflexivity. Qed.

Lemma Reverse_unfold FormatFloat g l req log :
  let c := reverse_call FormatFloat l (default ReverseRequestOpts.zero req) in
  let r := base.transport (base_ g) log c in
  Reverse FormatFloat g (Some l) req log
  = (Returned (Some {| Reverse_FeatureCollection := base.collection r |}, base.err r),
     log ++ [c]).
Proof. destruct req; reflexivity. Qed.

Lemma Reverse_nil_location FormatFloat g req log :
  Reverse FormatFloat g None req log = (Panicked "nil pointer dereference", log).
Proof. destruct req; reflexivity. Qed.

Lemma Batch_unfold g queries req log :
  let c := batch_call queries (default BatchRequestOpts.zero req) in
  let r := base.transport (base_ g) log c in
  Batch g queries req log
  = (Returned (Some {| Batch_ := base.batch r |}, base.err r), log ++ [c]).
Proof. destruct req; reflexivity. Qed.

Lemma typesToString_cons t ts :
  typesToString (t :: ts) = GoStrings.Join (t :: ts) ",".
Proof. unfold typesToString. simpl bool_decide. by rewrite list_fmap_id. Qed.

Example typesToString_address_place :
  typesToString [Address; Place] = "address,place".
Proof. reflexivity. Qed.

(** ** The wire form of query values: what [Encode] writes, [ParseQuery] reads back *)

Lemma ContainsByte_app a b sep :
  ContainsByte (a +:+ b) sep = ContainsByte a sep || ContainsByte b sep.
Proof.
  induction a as [|c a IH]; simpl; [done|].
  rewrite IH. by rewrite orb_assoc.
Qed.

Lemma Cut_at_first a b sep :
  ContainsByte a sep = false ->
  Cut (a +:+ String sep b) sep = (a, b, true).
Proof.
  induction a as [|c a IH]; simpl.
  - intros _. by rewrite Ascii.eqb_refl.
  - intros [Hc Ha]%orb_false_elim. rewrite Hc, (IH Ha). done.
Qed.

Lemma pieces_at_first a rest sep :
  ContainsByte a sep = false ->
  pieces (a +:+ String sep rest) sep = a :: pieces rest sep.
Proof.
  induction a as [|c a IH]; simpl.
  - intros _. by rewrite Ascii.eqb_refl.
  - intros [Hc Ha]%orb_false_elim. rewrite Hc, (IH Ha). done.
Qed.

Lemma pieces_whole a sep :
  a <> "" -> ContainsByte a sep = false -> pieces a sep = [a].
Proof.
  induction a as [|c a IH]; simpl; [done|].
  intros _ [Hc Ha]%orb_false_elim. rewrite Hc.
  destruct a as [|c' a]; [done|].
  rewrite IH; done.
Qed.

(** Joining non-empty texts free of the separator and cutting the result
    at the separator gives the texts back. *)
Lemma pieces_Join l sep :
  Forall (fun a => a <> "" /\ ContainsByte a sep = false) l ->
  pieces (Join l (String sep "")) sep = l.
Proof.
  unfold Join. induction 1 as [|a l [Hne Ha] Hl IH]; [done|].
  destruct l as [|b l].
  - simpl. by apply pieces_whole.
  - change (String.concat (String sep "") (a :: b :: l))
      with (a +:+ String sep (String.concat (String sep "") (b :: l))).
    rewrite pieces_at_first by done. by rewrite IH.
Qed.

Lemma eqb_differ (a b : ascii) : b <> a -> Ascii.eqb a b = false.
Proof. intros H. apply Ascii.eqb_neq. congruence. Qed.

(** Every byte, written as two upper-case hex digits, reads back. *)
Lemma hex_digits_read_back c :
  let n := N_of_ascii c in
  ishex (upperhex (n / 16)) = true
  /\ ishex (upperhex (n mod 16)) = true
  /\ ascii_of_N (unhex (upperhex (n / 16)) * 16 + unhex (upperhex (n mod 16))) = c.
Proof.
  destruct c as [[] [] [] [] [] [] [] []]; vm_compute; auto.
Qed.

(** The hex digits are unreserved characters, and neither ['%'] nor ['+']
    is. *)
Lemma hex_digits_unreserved c :
  shouldEscape (upperhex (N_of_ascii c / 16)) = false
  /\ shouldEscape (upperhex (N_of_ascii c mod 16)) = false.
Proof.
  destruct c as [[] [] [] [] [] [] [] []]; vm_compute; auto.
Qed.

Lemma unescape_escape s : QueryUnescape (QueryEscape s) = Some s.
Proof.
  induction s as [|c s IH]; [done|].
  cbn [QueryEscape].
  destruct (shouldEscape c) eqn:Hesc.
  - destruct (Ascii.eqb c " ") eqn:Hsp.
    + apply Ascii.eqb_eq in Hsp as ->.
      cbn. by rewrite IH.
    + destruct (hex_digits_read_back c) as (Hh & Hl & Hc).
      cbn [QueryUnescape]. rewrite Ascii.eqb_refl, Hh, Hl. cbn [andb].
      rewrite IH, Hc. done.
  - cbn [QueryUnescape].
    destruct (Ascii.eqb c "%") eqn:Hp.
    { apply Ascii.eqb_eq in Hp as ->. discriminate Hesc. }
    destruct (Ascii.eqb c "+") eqn:Hq.
    { apply Ascii.eqb_eq in Hq as ->. discriminate Hesc. }
    by rewrite IH.
Qed.

(** An escaped text holds unreserved characters, ['%'] and ['+'] only. *)
Lemma escape_free_of s sep :
  shouldEscape sep = true -> sep <> "%"%char -> sep <> "+"%char ->
  ContainsByte (QueryEscape s) sep = false.
Proof.
  intros Hsep Hp Hq.
  assert (Hne : forall c, shouldEscape c = false -> Ascii.eqb c sep = false).
  { intros c Hc. apply Ascii.eqb_neq. intros ->. congruence. }
  induction s as [|c s IH]; [done|].
  cbn [QueryEscape].
  destruct (shouldEscape c) eqn:Hesc.
  - destruct (Ascii.eqb c " ").
    + cbn [ContainsByte]. rewrite IH, (eqb_differ "+" sep); done.
    + destruct (hex_digits_unreserved c) as [Hh Hl].
      cbn [ContainsByte].
      rewrite IH, (Hne _ Hh), (Hne _ Hl), (eqb_differ "%" sep); done.
  - cbn [ContainsByte]. by rewrite IH, (Hne _ Hesc).
Qed.

Lemma writePair_free_of kx sep :
  shouldEscape sep = true -> sep <> "%"%char -> sep <> "+"%char ->
  sep <> "="%char ->
  ContainsByte (writePair kx) sep = false.
Proof.
  intros Hsep Hp Hq He. unfold writePair.
  rewrite !ContainsByte_app, !escape_free_of by done.
  cbn [ContainsByte]. rewrite (eqb_differ "=" sep); done.
Qed.

Lemma writePair_nonempty kx : writePair kx <> "".
Proof.
  unfold writePair. destruct (QueryEscape kx.1); discriminate.
Qed.

Lemma Cut_writePair kx :
  Cut (writePair kx) "=" = (QueryEscape kx.1, QueryEscape kx.2, true).
Proof.
  apply (Cut_at_first (QueryEscape kx.1) (QueryEscape kx.2) "=").
  by apply escape_free_of.
Qed.

(** One turn of the parsing loop on a written pair adds that pair. *)
Lemma parseStep_writePair m err kx :
  parseStep (m, err) (writePair kx) = (addPair m kx, err).
Proof.
  unfold parseStep.
  rewrite writePair_free_of by done.
  rewrite bool_decide_false by apply writePair_nonempty.
  rewrite Cut_writePair.
  by rewrite !unescape_escape.
Qed.

Lemma parse_written_pairs l m err :
  foldl parseStep (m, err) (writePair <$> l)
  = (foldl addPair m l, err).
Proof.
  revert m. induction l as [|kx l IH]; intros m; [done|].
  cbn [fmap list_fmap foldl]. by rewrite parseStep_writePair, IH.
Qed.

(** Reading back what [Encode] wrote adds its pairs one by one, without an
    error. *)
Lemma ParseQuery_Encode v :
  ParseQuery (Encode v)
  = (foldl addPair ∅ (pairs v), None).
Proof.
  unfold ParseQuery, Encode.
  rewrite pieces_Join; [apply parse_written_pairs|].
  apply Forall_fmap, Forall_true. intros kx. split.
  - apply writePair_nonempty.
  - by apply writePair_free_of.
Qed.

Lemma Add_lookup_ne (m : url.Values) k k' x :
  k <> k' -> Add m k x !! k' = m !! k'.
Proof. intros H. unfold Add. by rewrite lookup_insert_ne. Qed.

Lemma Add_lookup_eq (m : url.Values) k x :
  Add m k x !! k = Some (default [] (m !! k) ++ [x]).
Proof. unfold Add. by rewrite lookup_insert_eq. Qed.

Lemma add_values_other (m : url.Values) k k' xs :
  k <> k' -> foldl addPair m ((fun x => (k, x)) <$> xs) !! k' = m !! k'.
Proof.
  intros Hne. revert m. induction xs as [|x xs IH]; intros m; [done|].
  cbn [fmap list_fmap foldl]. rewrite IH. by apply Add_lookup_ne.
Qed.

Lemma add_values_same (m : url.Values) k xs :
  foldl addPair m ((fun x => (k, x)) <$> xs) !! k
  = match xs with
    | [] => m !! k
    | _ => Some (default [] (m !! k) ++ xs)
    end.
Proof.
  revert m. induction xs as [|x xs IH]; intros m; [done|].
  cbn [fmap list_fmap foldl]. rewrite IH.
  unfold addPair at 1 2. cbn [fst snd]. rewrite Add_lookup_eq. cbn [default].
  destruct xs as [|y xs]; [done|].
  unfold id. by rewrite <- app_assoc.
Qed.

Lemma add_keys (v m : url.Values) keys k' :
  NoDup keys ->
  foldl addPair m
        (flat_map (fun k => (fun x => (k, x)) <$> default [] (v !! k)) keys) !! k'
  = if decide (k' ∈ keys)
    then match default [] (v !! k') with
         | [] => m !! k'
         | xs => Some (default [] (m !! k') ++ xs)
         end
    else m !! k'.
Proof.
  intros Hnd. revert m.
  induction Hnd as [|k keys Hnotin Hnd IH]; intros m.
  - cbn. by rewrite decide_False by apply not_elem_of_nil.
  - cbn [flat_map]. rewrite foldl_app, IH.
    destruct (decide (k' = k)) as [->|Hne].
    + rewrite decide_False by done.
      rewrite decide_True by apply list_elem_of_here.
      rewrite add_values_same. by destruct (default [] (v !! k)).
    + rewrite add_values_other by done.
      destruct (decide (k' ∈ keys)) as [Hin|Hout].
      * by rewrite decide_True by (by apply list_elem_of_further).
      * rewrite decide_False; [done|].
        intros [?|?]%elem_of_cons; done.
Qed.

(** What a reader of the encoded query finds under a key: the values the
    map holds for it, a key without values being absent; and no error. *)
Theorem ParseQuery_Encode_lookup (v : url.Values) (k : string) :
  (ParseQuery (Encode v)).1 !! k
  = match v !! k with
    | Some (x :: xs) => Some (x :: xs)
    | _ => None
    end.
Proof.
  rewrite ParseQuery_Encode. cbn [fst]. unfold pairs.
  rewrite (add_keys v ∅).
  2:{ rewrite merge_sort_Permutation. apply NoDup_elements. }
  rewrite lookup_empty. cbn [default app].
  destruct (decide (k ∈ _)) as [Hin|Hout].
  - destruct (v !! k) as [[|x xs]|]; done.
  - rewrite merge_sort_Permutation, elem_of_elements, elem_of_dom in Hout.
    destruct (v !! k) as [l|] eqn:Hk; [|done].
    destruct Hout. by exists l.
Qed.

Lemma ParseQuery_Encode_no_error (v : url.Values) :
  (ParseQuery (Encode v)).2 = None.
Proof. by rewrite ParseQuery_Encode. Qed.


(** ** Marshalling an options struct *)

Lemma reflectValue_cons (m : url.Values) f fs :
  reflectValue m (f :: fs)
  = reflectValue (if omitempty f && isEmptyValue (value f) then m
                  else url.Add m (name f) (valueString (value f))) fs.
Proof. reflexivity. Qed.

(** A key that names no field is left as it was. *)
Lemma reflectValue_lookup_other (m : url.Values) fs k :
  k ∉ name <$> fs -> reflectValue m fs !! k = m !! k.
Proof.
  revert m. induction fs as [|f fs IH]; intros m Hk; [done|].
  rewrite fmap_cons, not_elem_of_cons in Hk. destruct Hk as [Hne Hk].
  rewrite reflectValue_cons, IH by done.
  destruct (omitempty f && isEmptyValue (value f)); [done|].
  by apply Add_lookup_ne.
Qed.

(** With pairwise distinct names, the key of a field holds the text of
    its value, or nothing when the field is tagged [omitempty] and holds
    the zero value. *)
Lemma reflectValue_lookup_field (m : url.Values) fs f :
  NoDup (name <$> fs) -> f ∈ fs -> m !! name f = None ->
  reflectValue m fs !! name f
  = if omitempty f && isEmptyValue (value f) then None
    else Some [valueString (value f)].
Proof.
  revert m. induction fs as [|f0 fs IH]; intros m Hnd Hf Hm.
  - by apply elem_of_nil in Hf.
  - rewrite fmap_cons in Hnd. apply NoDup_cons in Hnd as [Hf0 Hnd].
    rewrite reflectValue_cons.
    apply elem_of_cons in Hf as [->|Hf].
    + rewrite reflectValue_lookup_other by done.
      destruct (omitempty f0 && isEmptyValue (value f0)); [done|].
      by rewrite Add_lookup_eq, Hm.
    + assert (name f0 <> name f) as Hne.
      { intros Heq. apply Hf0. rewrite Heq. by apply list_elem_of_fmap_2. }
      apply IH; [done..|].
      destruct (omitempty f0 && isEmptyValue (value f0)); [done|].
      by rewrite Add_lookup_ne.
Qed.

Lemma marshal_lookup_field fs f :
  NoDup (name <$> fs) -> f ∈ fs ->
  marshal fs !! name f
  = if omitempty f && isEmptyValue (value f) then None
    else Some [valueString (value f)].
Proof. intros. by apply reflectValue_lookup_field. Qed.

Lemma sent_param_lookup c k :
  sent_param c k
  = match values_of c !! k with
    | Some (x :: xs) => Some (x :: xs)
    | _ => None
    end.
Proof. apply ParseQuery_Encode_lookup. Qed.

Lemma sent_by_last {A} (o : result A * list (base.Call Body)) log c k :
  o.2 = log ++ [c] -> sent_by o k = sent_param c k.
Proof. intros H. unfold sent_by. by rewrite H, last_snoc. Qed.

(** The names of the fields of each options struct: fixed, pairwise
    distinct, and none is a key the operations set themselves. *)
Lemma ForwardRequestOpts_names r :
  name <$> ForwardRequestOpts.fields r
  = ["country"; "proximity"; "types"; "autocomplete"; "bbox"; "limit";
     "language"; "worldview"; "format"; "permanent"].
Proof. reflexivity. Qed.

Lemma StructuredInputOpts_names r :
  name <$> StructuredInputOpts.fields r
  = ["address_line1"; "address_number"; "street"; "block"; "place";
     "region"; "postcode"; "locality"; "neighborhood"; "country";
     "autocomplete"; "bbox"; "format"; "language"; "limit"; "proximity";
     "types"; "worldview"; "permanent"].
Proof. reflexivity. Qed.

Lemma ReverseRequestOpts_names r :
  name <$> ReverseRequestOpts.fields r
  = ["types"; "limit"; "country"; "language"; "worldview"; "permanent"].
Proof. reflexivity. Qed.

Lemma BatchRequestOpts_names r :
  name <$> BatchRequestOpts.fields r = ["permanent"].
Proof. reflexivity. Qed.


(** ** Which parameters an operation sends *)

Lemma Set_lookup_ne (v : url.Values) k k' x :
  k <> k' -> url.Set_ v k x !! k' = v !! k'.
Proof. intros H. unfold url.Set_. by rewrite lookup_insert_ne. Qed.

Lemma field_name_differs (fs : list field) f k :
  f ∈ fs -> k ∉ name <$> fs -> k <> name f.
Proof. intros Hf Hk ->. apply Hk. by apply list_elem_of_fmap_2. Qed.

Lemma unset_field_omitted (fs : list field) f :
  NoDup (name <$> fs) -> Forall (fun f => omitempty f = true) fs ->
  f ∈ fs -> isEmptyValue (value f) = true ->
  marshal fs !! name f = None.
Proof.
  intros Hnd Hall Hf Hz. rewrite marshal_lookup_field by done.
  rewrite Forall_forall in Hall. by rewrite (Hall f Hf), Hz.
Qed.

Lemma bool_field_sent (fs : list field) k b :
  NoDup (name <$> fs) -> Field k true (VBool b) ∈ fs ->
  marshal fs !! k = if b then Some ["true"] else None.
Proof.
  intros Hnd Hf. rewrite (marshal_lookup_field fs _ Hnd Hf : marshal fs !! k = _). by destruct b.
Qed.

Lemma string_field_sent (fs : list field) k s :
  NoDup (name <$> fs) -> Field k true (VString s) ∈ fs -> s <> "" ->
  marshal fs !! k = Some [s].
Proof.
  intros Hnd Hf Hs. rewrite (marshal_lookup_field fs _ Hnd Hf : marshal fs !! k = _).
  cbn. rewrite bool_decide_false; [done|]. by destruct s.
Qed.


Lemma ForwardRequestOpts_NoDup r : NoDup (name <$> ForwardRequestOpts.fields r).
Proof. rewrite ForwardRequestOpts_names. decide_it. Qed.

Lemma StructuredInputOpts_NoDup r : NoDup (name <$> StructuredInputOpts.fields r).
Proof. rewrite StructuredInputOpts_names. decide_it. Qed.

Lemma ReverseRequestOpts_NoDup r : NoDup (name <$> ReverseRequestOpts.fields r).
Proof. rewrite ReverseRequestOpts_names. decide_it. Qed.

Lemma BatchRequestOpts_NoDup r : NoDup (name <$> BatchRequestOpts.fields r).
Proof. rewrite BatchRequestOpts_names. decide_it. Qed.

Lemma ForwardRequestOpts_omitempty r :
  Forall (fun f => omitempty f = true) (ForwardRequestOpts.fields r).
Proof. repeat constructor. Qed.

Lemma StructuredInputOpts_omitempty r :
  Forall (fun f => omitempty f = true) (StructuredInputOpts.fields r).
Proof. repeat constructor. Qed.

Lemma ReverseRequestOpts_omitempty r :
  Forall (fun f => omitempty f = true) (ReverseRequestOpts.fields r).
Proof. repeat constructor. Qed.

Lemma BatchRequestOpts_omitempty r :
  Forall (fun f => omitempty f = true) (BatchRequestOpts.fields r).
Proof. repeat constructor. Qed.

(** The parameters of the call each primitive makes, read off the options
    it marshals: the keys it sets itself name no field. *)
Lemma forward_call_param place r k :
  k <> "q" ->
  sent_param (forward_call place r) k
  = match marshal (ForwardRequestOpts.fields r) !! k with
    | Some (x :: xs) => Some (x :: xs)
    | _ => None
    end.
Proof.
  intros Hk. rewrite sent_param_lookup. cbn [values_of forward_call].
  by rewrite Set_lookup_ne.
Qed.

Lemma reverse_call_param FormatFloat l r k :
  k <> "longitude" -> k <> "latitude" ->
  sent_param (reverse_call FormatFloat l r) k
  = match marshal (ReverseRequestOpts.fields r) !! k with
    | Some (x :: xs) => Some (x :: xs)
    | _ => None
    end.
Proof.
  intros Hlon Hlat. rewrite sent_param_lookup. cbn [values_of reverse_call].
  by rewrite !Set_lookup_ne.
Qed.

Lemma Forward_sends g place r log k :
  sent_by (Forward g place (Some r) log) k = sent_param (forward_call place r) k.
Proof. apply (sent_by_last _ log). by rewrite Forward_unfold. Qed.

Lemma ForwardStructured_sends g req log k :
  sent_by (ForwardStructured g req log) k = sent_param (structured_call req) k.
Proof. apply (sent_by_last _ log). by rewrite ForwardStructured_unfold. Qed.

Lemma Reverse_sends FormatFloat g l r log k :
  sent_by (Reverse FormatFloat g (Some l) (Some r) log) k
  = sent_param (reverse_call FormatFloat l r) k.
Proof. apply (sent_by_last _ log). by rewrite Reverse_unfold. Qed.

Lemma Batch_sends g queries r log k :
  sent_by (Batch g queries (Some r) log) k = sent_param (batch_call queries r) k.
Proof. apply (sent_by_last _ log). by rewrite Batch_unfold. Qed.

(** C3: an options field left at its zero value is absent from the query
    string of the call the operation makes: a reader of that string finds
    no such key. This holds for the options of [Forward],
    [ForwardStructured], [Reverse] and [Batch]. *)
Theorem unset_fields_absent_from_query
  (FormatFloat : float64 -> string) (g : Geocode) (place : string)
  (l : base.Location) (queries : list BatchQuery.t)
  (fr : ForwardRequestOpts.t) (sr : StructuredInputOpts.t)
  (rr : ReverseRequestOpts.t) (br : BatchRequestOpts.t)
  (log : list (base.Call Body)) :
  (forall f, f ∈ ForwardRequestOpts.fields fr ->
             isEmptyValue (value f) = true ->
             sent_by (Forward g place (Some fr) log) (name f) = None)
  /\ (forall f, f ∈ StructuredInputOpts.fields sr ->
                isEmptyValue (value f) = true ->
                sent_by (ForwardStructured g (Some sr) log) (name f) = None)
  /\ (forall f, f ∈ ReverseRequestOpts.fields rr ->
                isEmptyValue (value f) = true ->
                sent_by (Reverse FormatFloat g (Some l) (Some rr) log) (name f) = None)
  /\ (forall f, f ∈ BatchRequestOpts.fields br ->
                isEmptyValue (value f) = true ->
                sent_by (Batch g queries (Some br) log) (name f) = None).
Proof.
  repeat match goal with |- _ /\ _ => split end; intros f Hf Hz.
  - rewrite Forward_sends, forward_call_param.
    + by rewrite unset_field_omitted
        by auto using ForwardRequestOpts_NoDup, ForwardRequestOpts_omitempty.
    + apply not_eq_sym, (field_name_differs _ _ _ Hf).
      rewrite ForwardRequestOpts_names. decide_it.
  - rewrite ForwardStructured_sends, sent_param_lookup. cbn [values_of structured_call].
    by rewrite unset_field_omitted
      by auto using StructuredInputOpts_NoDup, StructuredInputOpts_omitempty.
  - rewrite Reverse_sends, reverse_call_param.
    + by rewrite unset_field_omitted
        by auto using ReverseRequestOpts_NoDup, ReverseRequestOpts_omitempty.
    + apply not_eq_sym, (field_name_differs _ _ _ Hf).
      rewrite ReverseRequestOpts_names. decide_it.
    + apply not_eq_sym, (field_name_differs _ _ _ Hf).
      rewrite ReverseRequestOpts_names. decide_it.
  - rewrite Batch_sends, sent_param_lookup. cbn [values_of batch_call].
    by rewrite unset_field_omitted
      by auto using BatchRequestOpts_NoDup, BatchRequestOpts_omitempty.
Qed.


(** C8: a boolean option appears in the query string exactly when it is
    true, and then as [true]: a field that is false, set so or never set,
    sends nothing, so [autocomplete=false] or [permanent=false] is never
    sent. This holds for every boolean field of the four options
    structs. *)
Theorem boolean_options_sent_iff_true
  (FormatFloat : float64 -> string) (g : Geocode) (place : string)
  (l : base.Location) (queries : list BatchQuery.t)
  (fr : ForwardRequestOpts.t) (sr : StructuredInputOpts.t)
  (rr : ReverseRequestOpts.t) (br : BatchRequestOpts.t)
  (log : list (base.Call Body)) :
  sent_by (Forward g place (Some fr) log) "autocomplete"
  = (if ForwardRequestOpts.Autocomplete fr then Some ["true"] else None)
  /\ sent_by (Forward g place (Some fr) log) "permanent"
     = (if ForwardRequestOpts.Permanent fr then Some ["true"] else None)
  /\ sent_by (ForwardStructured g (Some sr) log) "autocomplete"
     = (if StructuredInputOpts.Autocomplete sr then Some ["true"] else None)
  /\ sent_by (ForwardStructured g (Some sr) log) "permanent"
     = (if StructuredInputOpts.Permanent sr then Some ["true"] else None)
  /\ sent_by (Reverse FormatFloat g (Some l) (Some rr) log) "permanent"
     = (if ReverseRequestOpts.Permanent rr then Some ["true"] else None)
  /\ sent_by (Batch g queries (Some br) log) "permanent"
     = (if BatchRequestOpts.Permanent br then Some ["true"] else None).
Proof.
  repeat match goal with |- _ /\ _ => split end.
  - rewrite Forward_sends, forward_call_param by done.
    rewrite (bool_field_sent _ _ (ForwardRequestOpts.Autocomplete fr))
      by first [apply ForwardRequestOpts_NoDup | repeat constructor].
    by destruct (ForwardRequestOpts.Autocomplete fr).
  - rewrite Forward_sends, forward_call_param by done.
    rewrite (bool_field_sent _ _ (ForwardRequestOpts.Permanent fr))
      by first [apply ForwardRequestOpts_NoDup | repeat constructor].
    by destruct (ForwardRequestOpts.Permanent fr).
  - rewrite ForwardStructured_sends, sent_param_lookup.
    cbn [values_of structured_call].
    rewrite (bool_field_sent _ _ (StructuredInputOpts.Autocomplete sr))
      by first [apply StructuredInputOpts_NoDup | repeat constructor].
    by destruct (StructuredInputOpts.Autocomplete sr).
  - rewrite ForwardStructured_sends, sent_param_lookup.
    cbn [values_of structured_call].
    rewrite (bool_field_sent _ _ (StructuredInputOpts.Permanent sr))
      by first [apply StructuredInputOpts_NoDup | repeat constructor].
    by destruct (StructuredInputOpts.Permanent sr).
  - rewrite Reverse_sends, reverse_call_param by done.
    rewrite (bool_field_sent _ _ (ReverseRequestOpts.Permanent rr))
      by first [apply ReverseRequestOpts_NoDup | repeat constructor].
    by destruct (ReverseRequestOpts.Permanent rr).
  - rewrite Batch_sends, sent_param_lookup. cbn [values_of batch_call].
    rewrite (bool_field_sent _ _ (BatchRequestOpts.Permanent br))
      by first [apply BatchRequestOpts_NoDup | repeat constructor].
    by destruct (BatchRequestOpts.Permanent br).
Qed.


Example forwardWithOptionsExample_query :
  (Forward (client fixed_net) "1600 Pennsylvania Avenue" (Some example.forward_opts) []).2
  = [forward_call "1600 Pennsylvania Avenue" example.forward_opts]
  /\ query_string (forward_call "1600 Pennsylvania Avenue" example.forward_opts)
     = "country=us&language=en&limit=5&q=1600+Pennsylvania+Avenue&types=address&worldview=us".
Proof. split; vm_compute; reflexivity. Qed.

Example permanentGeocodingExample_query :
  query_string (forward_call "Empire State Building" example.permanent_opts)
  = "country=us&limit=1&permanent=true&q=Empire+State+Building".
Proof. vm_compute. reflexivity. Qed.

Lemma sent_by_returns_with {Opts Resp} (r : Opts)
  (m : IO (option Resp * option error)) log k :
  sent_by (returns_with r m log) k = sent_by (m log) k.
Proof.
  unfold sent_by, returns_with, base.bind.
  by destruct (m log) as [[a|why] log'].
Qed.

Lemma with_comma_nonempty a b : a +:+ "," +:+ b <> "".
Proof. by destruct a. Qed.

(** C4: for a slice of two coordinates, [ForwardWithProximity] is
    [Forward] on the options with [Proximity] set by hand to the text
    ["lon,lat"] (both numbers in the [%f] form), and either way the request
    carries that text as its [proximity] parameter. *)
Theorem WithProximity_as_manual_lon_lat
  (g : Geocode) (place : string) (lon lat : float64)
  (req : option ForwardRequestOpts.t) (log : list (base.Call Body)) :
  let lon_lat := GoFmt.Sprintf_f lon +:+ "," +:+ GoFmt.Sprintf_f lat in
  let req' := ForwardRequestOpts.set_Proximity
                lon_lat (default ForwardRequestOpts.zero req) in
  ForwardWithProximity g place [lon; lat] req log
  = returns_with req' (Forward g place (Some req')) log
  /\ sent_by (ForwardWithProximity g place [lon; lat] req log) "proximity"
     = Some [lon_lat]
  /\ sent_by (Forward g place (Some req') log) "proximity" = Some [lon_lat].
Proof.
  intros lon_lat req'.
  assert (Hsent : sent_by (Forward g place (Some req') log) "proximity"
                  = Some [lon_lat]).
  { rewrite Forward_sends, forward_call_param by done.
    rewrite (string_field_sent _ _ lon_lat); [done| |repeat constructor|].
    - apply ForwardRequestOpts_NoDup.
    - apply with_comma_nonempty. }
  assert (Heq : ForwardWithProximity g place [lon; lat] req log
                = returns_with req' (Forward g place (Some req')) log)
    by by destruct req.
  split; [done|]. split; [|done].
  by rewrite Heq, sent_by_returns_with.
Qed.

Example WithProximity_central_park :
  sent_by (ForwardWithProximity (client fixed_net) "Starbucks"
             [(-73.968285)%float; (40.785091)%float]
             (Some example.limit_1_opts) [])
          "proximity"
  = Some ["-73.968285,40.785091"].
Proof. vm_compute. reflexivity. Qed.

(** C5 (as the code has it): [Batch] returns exactly the entries the HTTP
    layer decoded from the answer, in their order, together with the one
    error of the call; it neither counts them against the queries nor drops
    or reorders any. So when the answer holds one entry per query, in query
    order, the result does: as many entries as queries, each the answer to
    the query at its place. *)
Theorem Batch_returns_decoded_entries
  (g : Geocode) (queries : list BatchQuery.t)
  (req : option BatchRequestOpts.t) (log : list (base.Call Body)) :
  let answer :=
    base.transport (base_ g) log
      (batch_call queries (default BatchRequestOpts.zero req)) in
  exists resp,
    (Batch g queries req log).1 = Returned (Some resp, base.err answer)
    /\ Batch_ resp = base.batch answer
    /\ forall answers : BatchQuery.t -> base.FeatureCollection -> Prop,
         Forall2 answers queries (base.batch answer) ->
         Forall2 answers queries (Batch_ resp)
         /\ length (Batch_ resp) = length queries.
Proof.
  intros answer. exists {| Batch_ := base.batch answer |}.
  split; [by rewrite Batch_unfold|]. split; [reflexivity|].
  intros answers Hall. split; [exact Hall|].
  symmetry. by eapply Forall2_length.
Qed.

(** With a layer that answers one collection per query, in order, a batch
    returns one entry per query, in query order. *)
Lemma Batch_one_entry_per_query queries req log :
  exists entries,
    (Batch (client faithful_net) queries req log).1
    = Returned (Some {| Batch_ := entries |}, None)
    /\ length entries = length queries
    /\ forall i q, queries !! i = Some q ->
         base.Features <$> entries !! i = Some [a_feature (BatchQuery.Q q)].
Proof.
  rewrite Batch_unfold. eexists. split; [reflexivity|].
  cbn. split; [by rewrite length_fmap|].
  intros i q Hq. by rewrite list_lookup_fmap, Hq.
Qed.

(** C5, refuted as stated: the three queries of the example program, an
    answer that decodes to two collections and no error: [Batch] succeeds
    and returns two entries. *)
Lemma Batch_two_entries_for_three_queries :
  let o := Batch (client fixed_net) example.batch_queries None [] in
  length example.batch_queries = 3
  /\ exists resp, o.1 = Returned (Some resp, None) /\ length (Batch_ resp) <> 3.
Proof.
  split; [reflexivity|]. eexists. split; [reflexivity|]. cbn. lia.
Qed.

(** C6: whatever the queries, none or more than a thousand, [Batch] makes
    its one call with these queries as the body, and the error it returns
    is the error of that call: it checks nothing about their number. *)
Theorem Batch_sends_any_number_of_queries
  (g : Geocode) (queries : list BatchQuery.t)
  (req : option BatchRequestOpts.t) (log : list (base.Call Body)) :
  exists (v : url.Values) resp,
    let call := base.QueryWithBody "search/geocode/v6/batch" v queries in
    Batch g queries req log
    = (Returned (Some resp, base.err (base.transport (base_ g) log call)),
       log ++ [call]).
Proof.
  exists (marshal (BatchRequestOpts.fields (default BatchRequestOpts.zero req))).
  eexists. cbv zeta. rewrite Batch_unfold. reflexivity.
Qed.

Example Batch_no_query :
  (Batch (client faithful_net) [] None []).2
  = [base.QueryWithBody "search/geocode/v6/batch" ∅ []].
Proof. reflexivity. Qed.

Example Batch_1001_queries :
  let queries := replicate 1001 BatchQuery.zero in
  Batch (client faithful_net) queries None []
  = (Returned (Some {| Batch_ := base.batch (faithful_net []
                 (base.QueryWithBody "search/geocode/v6/batch" ∅ queries)) |},
               None),
     [base.QueryWithBody "search/geocode/v6/batch" ∅ queries]).
Proof. reflexivity. Qed.





(** ** The convenience wrappers *)

Lemma returns_with_returned {Opts Resp} (r : Opts)
  (m : IO (option Resp * option error)) log :
  returned (m log) -> returned (returns_with r m log).
Proof.
  unfold returned, returns_with, base.bind.
  destruct (m log) as [[a|why] log']; simpl; done.
Qed.

(** C10: every operation that takes an options pointer treats a nil pointer
    as a pointer to the zero-valued options struct: same outbound call, same
    results; and with a nil options pointer the operation returns rather
    than panics (for the reverse lookups, given a location to read). *)
Theorem nil_options_behave_as_zero_options
  (FormatFloat : float64 -> string) (g : Geocode) (place : string)
  (loc : option base.Location) (l : base.Location)
  (queries : list BatchQuery.t) (types : list Type_)
  (proximity : list float64) (bbox : base.BoundingBox)
  (permanent : list bool) (log : list (base.Call Body)) :
  (Forward g place None log
   = Forward g place (Some ForwardRequestOpts.zero) log
   /\ returned (Forward g place None log))
  /\ (Reverse FormatFloat g loc None log
      = Reverse FormatFloat g loc (Some ReverseRequestOpts.zero) log
      /\ returned (Reverse FormatFloat g (Some l) None log))
  /\ (Batch g queries None log
      = Batch g queries (Some BatchRequestOpts.zero) log
      /\ returned (Batch g queries None log))
  /\ (ForwardWithTypes g place types None log
      = ForwardWithTypes g place types (Some ForwardRequestOpts.zero) log
      /\ returned (ForwardWithTypes g place types None log))
  /\ (ForwardWithProximity g place proximity None log
      = ForwardWithProximity g place proximity (Some ForwardRequestOpts.zero) log
      /\ returned (ForwardWithProximity g place proximity None log))
  /\ (ForwardWithBBox g place bbox None log
      = ForwardWithBBox g place bbox (Some ForwardRequestOpts.zero) log
      /\ returned (ForwardWithBBox g place bbox None log))
  /\ (ReverseWithTypes FormatFloat g loc types None log
      = ReverseWithTypes FormatFloat g loc types (Some ReverseRequestOpts.zero) log
      /\ returned (ReverseWithTypes FormatFloat g (Some l) types None log))
  /\ (ForwardLegacy g place None permanent log
      = ForwardLegacy g place (Some ForwardRequestOpts.zero) permanent log
      /\ returned (ForwardLegacy g place None permanent log)).
Proof.
  assert (Hfwd : forall r, returned (Forward g place r log))
    by (intros r; rewrite Forward_unfold; exact I).
  assert (Hrev : forall r, returned (Reverse FormatFloat g (Some l) r log))
    by (intros r; rewrite Reverse_unfold; exact I).
  assert (Hbatch : forall r, returned (Batch g queries r log))
    by (intros r; rewrite Batch_unfold; exact I).
  repeat match goal with |- _ /\ _ => split end;
    first
      [ exact (eq_refl _)
      | apply Hfwd
      | apply Hrev
      | apply Hbatch
      | apply (returns_with_returned _ (Forward g place (Some _))), Hfwd
      | apply (returns_with_returned _ (Reverse FormatFloat g (Some l) (Some _))), Hrev ].
Qed.

(** C2 (as the code has it): with at least one type, [ForwardWithTypes] is
    [Forward] on the options with [Types] set to the comma-joined names, and
    [ReverseWithTypes] is [Reverse] likewise; with no type at all both leave
    the options, [Types] included, as they are. *)
Theorem WithTypes_sets_types_unless_empty
  (FormatFloat : float64 -> string) (g : Geocode) (place : string)
  (loc : option base.Location) (t : Type_) (ts : list Type_)
  (freq : option ForwardRequestOpts.t) (rreq : option ReverseRequestOpts.t)
  (log : list (base.Call Body)) :
  let joined := GoStrings.Join (t :: ts) "," in
  let freq' := ForwardRequestOpts.set_Types joined (default ForwardRequestOpts.zero freq) in
  let rreq' := ReverseRequestOpts.set_Types joined (default ReverseRequestOpts.zero rreq) in
  ForwardWithTypes g place (t :: ts) freq log
  = returns_with freq' (Forward g place (Some freq')) log
  /\ ReverseWithTypes FormatFloat g loc (t :: ts) rreq log
     = returns_with rreq' (Reverse FormatFloat g loc (Some rreq')) log
  /\ ForwardWithTypes g place [] freq log
     = returns_with (default ForwardRequestOpts.zero freq) (Forward g place freq) log
  /\ ReverseWithTypes FormatFloat g loc [] rreq log
     = returns_with (default ReverseRequestOpts.zero rreq)
                    (Reverse FormatFloat g loc rreq) log.
Proof.
  intros joined freq' rreq'. subst joined freq' rreq'.
  rewrite <- typesToString_cons.
  repeat match goal with |- _ /\ _ => split end.
  - reflexivity.
  - reflexivity.
  - by destruct freq.
  - by destruct rreq.
Qed.

(** C2, refuted as stated: with an empty type slice and options whose
    [Types] is ["address"], [ForwardWithTypes] still asks for
    [types=address], while [Forward] on the options with [Types] set to the
    join of the empty slice (the empty string) sends no [types] at all. *)
Lemma ForwardWithTypes_empty_keeps_types :
  let req := ForwardRequestOpts.set_Types "address" ForwardRequestOpts.zero in
  let req' := ForwardRequestOpts.set_Types (GoStrings.Join [] ",") req in
  (ForwardWithTypes (client fixed_net) "Central Park" [] (Some req) []).2
  <> (Forward (client fixed_net) "Central Park" (Some req') []).2.
Proof.
  intros req req' H.
  apply (f_equal (fun calls =>
                    match calls with
                    | [c] => values_of c !! "types"
                    | _ => None
                    end)) in H.
  vm_compute in H. discriminate H.
Qed.

(** C9: a proximity slice whose length is not 2 and a bounding box whose
    length is not 4 are ignored: the wrapper is [Forward] on the options as
    they came, and adds no error of its own. *)
Theorem WithProximity_WithBBox_ignore_other_lengths
  (g : Geocode) (place : string) (proximity : list float64)
  (bbox : base.BoundingBox) (req : option ForwardRequestOpts.t)
  (log : list (base.Call Body)) :
  length proximity <> 2 ->
  length bbox <> 4 ->
  ForwardWithProximity g place proximity req log
  = returns_with (default ForwardRequestOpts.zero req) (Forward g place req) log
  /\ ForwardWithBBox g place bbox req log
     = returns_with (default ForwardRequestOpts.zero req) (Forward g place req) log.
Proof.
  intros Hp Hb. unfold ForwardWithProximity, ForwardWithBBox.
  rewrite !bool_decide_false by done.
  split; by destruct req.
Qed.

Lemma WithProximity_WithBBox_ignore_other_lengths_witness :
  let g := client fixed_net in
  let req := Some (ForwardRequestOpts.set_Types "place" ForwardRequestOpts.zero) in
  ForwardWithProximity g "Starbucks" [(-73.968285)%float] req []
  = returns_with (default ForwardRequestOpts.zero req) (Forward g "Starbucks" req) []
  /\ ForwardWithBBox g "Starbucks" [(-74.1)%float; (40.6)%float; (-73.8)%float] req []
     = returns_with (default ForwardRequestOpts.zero req) (Forward g "Starbucks" req) [].
Proof.
  apply (WithProximity_WithBBox_ignore_other_lengths
           (client fixed_net) "Starbucks" [(-73.968285)%float]
           [(-74.1)%float; (40.6)%float; (-73.8)%float]);
    simpl; lia.
Defined.

(** ** Every operation: one call, the answer and its error passed on *)

Lemma returns_with_log {Opts Resp} (r : Opts)
  (m : IO (option Resp * option error)) log :
  (returns_with r m log).2 = (m log).2.
Proof.
  unfold returns_with, base.bind. by destruct (m log) as [[a|why] log'].
Qed.

Lemma one_call_returns_with {Opts Resp} (r : Opts)
  (m : IO (option Resp * option error)) log path body :
  one_call (m log) log path body -> one_call (returns_with r m log) log path body.
Proof. unfold one_call. by rewrite returns_with_log. Qed.

Lemma Forward_one_call g place req log :
  one_call (Forward g place req log) log "search/geocode/v6/forward" None.
Proof. rewrite Forward_unfold. by eexists. Qed.

Lemma Reverse_one_call FormatFloat g l req log :
  one_call (Reverse FormatFloat g (Some l) req log) log
           "search/geocode/v6/reverse" None.
Proof. rewrite Reverse_unfold. by eexists. Qed.

(** X1: Every operation of the module makes exactly one call into the base
    client, whatever that call answers (there is no second attempt): the
    forward lookups and their wrappers to the forward endpoint, the reverse
    lookups (given a location) to the reverse endpoint, both without a body,
    and [Batch] to the batch endpoint with the queries as the body. *)
Theorem every_operation_makes_one_call
  (FormatFloat : float64 -> string) (g : Geocode) (place : string)
  (l : base.Location) (queries : list BatchQuery.t) (types : list Type_)
  (proximity : list float64) (bbox : base.BoundingBox) (permanent : list bool)
  (freq : option ForwardRequestOpts.t) (sreq : option StructuredInputOpts.t)
  (rreq : option ReverseRequestOpts.t) (breq : option BatchRequestOpts.t)
  (log : list (base.Call Body)) :
  let forward := "search/geocode/v6/forward" in
  let reverse := "search/geocode/v6/reverse" in
  one_call (Forward g place freq log) log forward None
  /\ one_call (ForwardStructured g sreq log) log forward None
  /\ one_call (Reverse FormatFloat g (Some l) rreq log) log reverse None
  /\ one_call (Batch g queries breq log) log "search/geocode/v6/batch" (Some queries)
  /\ one_call (ForwardWithTypes g place types freq log) log forward None
  /\ one_call (ForwardWithProximity g place proximity freq log) log forward None
  /\ one_call (ForwardWithBBox g place bbox freq log) log forward None
  /\ one_call (ReverseWithTypes FormatFloat g (Some l) types rreq log) log reverse None
  /\ one_call (ForwardLegacy g place freq permanent log) log forward None
  /\ one_call (ReverseLegacy FormatFloat g (Some l) rreq log) log reverse None.
Proof.
  intros forward reverse.
  repeat match goal with |- _ /\ _ => split end.
  - apply Forward_one_call.
  - rewrite ForwardStructured_unfold. by eexists.
  - apply Reverse_one_call.
  - rewrite Batch_unfold. by eexists.
  - apply (one_call_returns_with _ (Forward g place (Some _))), Forward_one_call.
  - apply (one_call_returns_with _ (Forward g place (Some _))), Forward_one_call.
  - apply (one_call_returns_with _ (Forward g place (Some _))), Forward_one_call.
  - apply (one_call_returns_with _ (Reverse FormatFloat g (Some l) (Some _))),
      Reverse_one_call.
  - apply (one_call_returns_with _ (Forward g place (Some _))), Forward_one_call.
  - apply Reverse_one_call.
Qed.

(** X2: The primitives never return a nil response: the branch that would,
    taken when the options cannot be marshalled, is dead, since the options
    are always a pointer to a struct or nil. They return the response and,
    untouched, the error of the call; so after a failed call the caller
    holds both a response and an error. *)
Theorem primitives_return_response_and_call_error
  (FormatFloat : float64 -> string) (g : Geocode) (place : string)
  (l : base.Location) (queries : list BatchQuery.t)
  (freq : option ForwardRequestOpts.t) (sreq : option StructuredInputOpts.t)
  (rreq : option ReverseRequestOpts.t) (breq : option BatchRequestOpts.t)
  (log : list (base.Call Body)) :
  passes_call_error g (Forward g place freq log) log
  /\ passes_call_error g (ForwardStructured g sreq log) log
  /\ passes_call_error g (Reverse FormatFloat g (Some l) rreq log) log
  /\ passes_call_error g (Batch g queries breq log) log
  /\ passes_call_error g (ReverseLegacy FormatFloat g (Some l) rreq log) log.
Proof.
  unfold passes_call_error, ReverseLegacy.
  rewrite Forward_unfold, ForwardStructured_unfold, Reverse_unfold, Batch_unfold.
  repeat match goal with |- _ /\ _ => split end; by eexists _, _.
Qed.

(** X3: A reverse lookup without a location panics when it reads the
    coordinates, after the options are marshalled and before any call is
    made; so do the wrapper and the legacy entry point, whatever the options
    and types. *)
Theorem reverse_without_location_panics
  (FormatFloat : float64 -> string) (g : Geocode) (types : list Type_)
  (req : option ReverseRequestOpts.t) (log : list (base.Call Body)) :
  Reverse FormatFloat g None req log = (Panicked "nil pointer dereference", log)
  /\ ReverseWithTypes FormatFloat g None types req log
     = (Panicked "nil pointer dereference", log)
  /\ ReverseLegacy FormatFloat g None req log
     = (Panicked "nil pointer dereference", log).
Proof.
  split; [apply Reverse_nil_location|]. split; [|apply Reverse_nil_location].
  unfold ReverseWithTypes, base.bind. by rewrite Reverse_nil_location.
Qed.

(** ** The parameters of the primitives *)

(** What marshalling leaves under a key: the texts its fields contribute,
    appended to what the key held. *)
Lemma reflectValue_lookup (m : url.Values) (fs : list field) k :
  reflectValue m fs !! k
  = match sent_values k fs with
    | [] => m !! k
    | xs => Some (default [] (m !! k) ++ xs)
    end.
Proof.
  revert m. induction fs as [|f fs IH]; intros m; [done|].
  rewrite reflectValue_cons, IH. unfold sent_values at 2. cbn [omap list_omap].
  fold (sent_values k fs).
  destruct (omitempty f && isEmptyValue (value f)).
  { rewrite andb_false_r. done. }
  rewrite andb_true_r. case_bool_decide as Hk.
  - subst k. rewrite Add_lookup_eq. cbn [default].
    destruct (sent_values (name f) fs); unfold id; [done|].
    by rewrite <- app_assoc.
  - by rewrite Add_lookup_ne.
Qed.

Lemma marshal_lookup (fs : list field) k :
  marshal fs !! k = match sent_values k fs with [] => None | xs => Some xs end.
Proof.
  unfold marshal. rewrite reflectValue_lookup, lookup_empty.
  by destruct (sent_values k fs).
Qed.

Lemma Set_lookup_eq (v : url.Values) k x : url.Set_ v k x !! k = Some [x].
Proof. unfold url.Set_. by rewrite lookup_insert_eq. Qed.

(** X4: [Forward] and its wrappers send the search text as the [q] parameter,
    whatever the text (empty, or full of reserved characters: it is escaped
    on the way out and reads back as it was) and whatever the options. *)
Theorem forward_sends_place_as_q
  (g : Geocode) (place : string) (types : list Type_)
  (proximity : list float64) (bbox : base.BoundingBox) (permanent : list bool)
  (req : option ForwardRequestOpts.t) (log : list (base.Call Body)) :
  sent_by (Forward g place req log) "q" = Some [place]
  /\ sent_by (ForwardWithTypes g place types req log) "q" = Some [place]
  /\ sent_by (ForwardWithProximity g place proximity req log) "q" = Some [place]
  /\ sent_by (ForwardWithBBox g place bbox req log) "q" = Some [place]
  /\ sent_by (ForwardLegacy g place req permanent log) "q" = Some [place].
Proof.
  assert (Hq : forall r, sent_by (Forward g place r log) "q" = Some [place]).
  { intros r. erewrite sent_by_last by (by rewrite Forward_unfold).
    rewrite sent_param_lookup. cbn [values_of forward_call].
    by rewrite Set_lookup_eq. }
  repeat match goal with |- _ /\ _ => split end; [apply Hq|..];
    apply (eq_trans (sent_by_returns_with _ (Forward g place (Some _)) log "q")),
          Hq.
Qed.

Example forward_escapes_place :
  query_string (forward_call "Rue de l'Église & 5ème" ForwardRequestOpts.zero)
  = "q=Rue+de+l%27%C3%89glise+%26+5%C3%A8me".
Proof. vm_compute. reflexivity. Qed.

(** X5: [Reverse] sends the coordinates of the location as [longitude] and
    [latitude], each in the shortest decimal form, whatever the options:
    no option can replace them. *)
Theorem reverse_sends_coordinates
  (FormatFloat : float64 -> string) (g : Geocode) (l : base.Location)
  (req : option ReverseRequestOpts.t) (log : list (base.Call Body)) :
  sent_by (Reverse FormatFloat g (Some l) req log) "longitude"
  = Some [FormatFloat (base.Longitude l)]
  /\ sent_by (Reverse FormatFloat g (Some l) req log) "latitude"
     = Some [FormatFloat (base.Latitude l)].
Proof.
  split; erewrite sent_by_last by (by rewrite Reverse_unfold);
    rewrite sent_param_lookup; cbn [values_of reverse_call].
  - by rewrite Set_lookup_ne, Set_lookup_eq.
  - by rewrite Set_lookup_eq.
Qed.

Lemma field_sent_exactly (fs : list field) f :
  NoDup (name <$> fs) -> Forall (fun f => omitempty f = true) fs -> f ∈ fs ->
  match marshal fs !! name f with
  | Some (x :: xs) => Some (x :: xs)
  | _ => None
  end
  = if isEmptyValue (value f) then None else Some [valueString (value f)].
Proof.
  intros Hnd Hall Hf. rewrite marshal_lookup_field by done.
  rewrite Forall_forall in Hall. rewrite (Hall f Hf).
  by destruct (isEmptyValue (value f)).
Qed.

(** X6: Every option of the four options structs travels under the name of its
    tag with exactly its value as text (a text as it is, a number in
    decimal, a boolean as [true]) when it is not the zero value, and not at
    all when it is; so a limit of 0 or an empty text cannot be sent. *)
Theorem options_sent_exactly_when_set
  (FormatFloat : float64 -> string) (g : Geocode) (place : string)
  (l : base.Location) (queries : list BatchQuery.t)
  (fr : ForwardRequestOpts.t) (sr : StructuredInputOpts.t)
  (rr : ReverseRequestOpts.t) (br : BatchRequestOpts.t)
  (log : list (base.Call Body)) :
  let sent (f : field) :=
    if isEmptyValue (value f) then None else Some [valueString (value f)] in
  (forall f, f ∈ ForwardRequestOpts.fields fr ->
             sent_by (Forward g place (Some fr) log) (name f) = sent f)
  /\ (forall f, f ∈ StructuredInputOpts.fields sr ->
                sent_by (ForwardStructured g (Some sr) log) (name f) = sent f)
  /\ (forall f, f ∈ ReverseRequestOpts.fields rr ->
                sent_by (Reverse FormatFloat g (Some l) (Some rr) log) (name f)
                = sent f)
  /\ (forall f, f ∈ BatchRequestOpts.fields br ->
                sent_by (Batch g queries (Some br) log) (name f) = sent f).
Proof.
  intros sent. subst sent.
  repeat match goal with |- _ /\ _ => split end; intros f Hf.
  - rewrite Forward_sends, forward_call_param.
    + apply field_sent_exactly;
        auto using ForwardRequestOpts_NoDup, ForwardRequestOpts_omitempty.
    + apply not_eq_sym, (field_name_differs _ _ _ Hf).
      rewrite ForwardRequestOpts_names. decide_it.
  - rewrite ForwardStructured_sends, sent_param_lookup.
    cbn [values_of structured_call].
    apply field_sent_exactly;
      auto using StructuredInputOpts_NoDup, StructuredInputOpts_omitempty.
  - rewrite Reverse_sends, reverse_call_param.
    + apply field_sent_exactly;
        auto using ReverseRequestOpts_NoDup, ReverseRequestOpts_omitempty.
    + apply not_eq_sym, (field_name_differs _ _ _ Hf).
      rewrite ReverseRequestOpts_names. decide_it.
    + apply not_eq_sym, (field_name_differs _ _ _ Hf).
      rewrite ReverseRequestOpts_names. decide_it.
  - rewrite Batch_sends, sent_param_lookup. cbn [values_of batch_call].
    apply field_sent_exactly;
      auto using BatchRequestOpts_NoDup, BatchRequestOpts_omitempty.
Qed.

Lemma marshal_lookup_no_field (fs : list field) k :
  k ∉ name <$> fs -> marshal fs !! k = None.
Proof.
  intros Hk. unfold marshal. by rewrite reflectValue_lookup_other, lookup_empty.
Qed.

(** X7: The primitives send nothing but their own keys: [Forward] the search
    text [q] and its ten options, [ForwardStructured] its nineteen options
    (and no [q]), [Reverse] the two coordinates and its six options, [Batch]
    in the query only [permanent]. *)
Theorem primitives_send_no_other_parameter
  (FormatFloat : float64 -> string) (g : Geocode) (place : string)
  (l : base.Location) (queries : list BatchQuery.t)
  (fr : ForwardRequestOpts.t) (sr : StructuredInputOpts.t)
  (rr : ReverseRequestOpts.t) (br : BatchRequestOpts.t)
  (log : list (base.Call Body)) (k : string) :
  (k ∉ ["q"; "country"; "proximity"; "types"; "autocomplete"; "bbox"; "limit";
        "language"; "worldview"; "format"; "permanent"] ->
   sent_by (Forward g place (Some fr) log) k = None)
  /\ (k ∉ ["address_line1"; "address_number"; "street"; "block"; "place";
           "region"; "postcode"; "locality"; "neighborhood"; "country";
           "autocomplete"; "bbox"; "format"; "language"; "limit"; "proximity";
           "types"; "worldview"; "permanent"] ->
      sent_by (ForwardStructured g (Some sr) log) k = None)
  /\ (k ∉ ["longitude"; "latitude"; "types"; "limit"; "country"; "language";
           "worldview"; "permanent"] ->
      sent_by (Reverse FormatFloat g (Some l) (Some rr) log) k = None)
  /\ (k <> "permanent" -> sent_by (Batch g queries (Some br) log) k = None).
Proof.
  repeat match goal with |- _ /\ _ => split end; intros Hk.
  - apply not_elem_of_cons in Hk as [Hq Hk].
    rewrite Forward_sends, forward_call_param by done.
    by rewrite marshal_lookup_no_field by by rewrite ForwardRequestOpts_names.
  - rewrite ForwardStructured_sends, sent_param_lookup.
    cbn [values_of structured_call].
    by rewrite marshal_lookup_no_field by by rewrite StructuredInputOpts_names.
  - apply not_elem_of_cons in Hk as [Hlon Hk].
    apply not_elem_of_cons in Hk as [Hlat Hk].
    rewrite Reverse_sends, reverse_call_param by done.
    by rewrite marshal_lookup_no_field by by rewrite ReverseRequestOpts_names.
  - rewrite Batch_sends, sent_param_lookup. cbn [values_of batch_call].
    rewrite marshal_lookup_no_field; [done|].
    rewrite BatchRequestOpts_names. by intros ->%list_elem_of_singleton.
Qed.

(** X8: [ForwardStructured] has no nil check, yet a nil options pointer is
    accepted: it behaves as the zero-valued options do, and either way the
    request carries no parameter at all, not even a search text. *)
Theorem ForwardStructured_nil_or_unset_sends_nothing
  (g : Geocode) (log : list (base.Call Body)) (k : string) :
  ForwardStructured g None log
  = ForwardStructured g (Some StructuredInputOpts.zero) log
  /\ returned (ForwardStructured g None log)
  /\ sent_by (ForwardStructured g None log) k = None
  /\ (ForwardStructured g None log).2
     = log ++ [base.Query "search/geocode/v6/forward" ∅].
Proof.
  split; [reflexivity|]. split; [by rewrite ForwardStructured_unfold|].
  split; [|by rewrite ForwardStructured_unfold].
  rewrite ForwardStructured_sends, sent_param_lookup.
  cbn [values_of structured_call]. by rewrite lookup_empty.
Qed.

(** ** The wrappers and the options they are given *)

Lemma sent_values_insert (fs : list field) i f f' k :
  fs !! i = Some f -> name f <> k -> name f' <> k ->
  sent_values k (<[i:=f']> fs) = sent_values k fs.
Proof.
  revert i. induction fs as [|f0 fs IH]; intros [|i] Hi Hf Hf'; try done.
  - injection Hi as ->. change (<[0:=f']> (f :: fs)) with (f' :: fs).
    unfold sent_values. cbn [omap list_omap].
    by rewrite !bool_decide_false by done.
  - change (<[S i:=f']> (f0 :: fs)) with (f0 :: <[i:=f']> fs).
    unfold sent_values. cbn [omap list_omap].
    fold (sent_values k (<[i:=f']> fs)). fold (sent_values k fs).
    by rewrite (IH i).
Qed.

(** Two options structs whose fields contribute the same texts under [k]
    make [Forward] (resp. [Reverse]) send the same under [k]. *)
Lemma Forward_sends_alike g place r r' log k :
  sent_values k (ForwardRequestOpts.fields r')
  = sent_values k (ForwardRequestOpts.fields r) ->
  sent_by (Forward g place (Some r') log) k
  = sent_by (Forward g place (Some r) log) k.
Proof.
  intros H. rewrite !Forward_sends, !sent_param_lookup.
  cbn [values_of forward_call].
  destruct (decide (k = "q")) as [->|Hq].
  - by rewrite !Set_lookup_eq.
  - by rewrite !Set_lookup_ne, !marshal_lookup, H.
Qed.

Lemma Reverse_sends_alike FormatFloat g loc r r' log k :
  sent_values k (ReverseRequestOpts.fields r')
  = sent_values k (ReverseRequestOpts.fields r) ->
  sent_by (Reverse FormatFloat g loc (Some r') log) k
  = sent_by (Reverse FormatFloat g loc (Some r) log) k.
Proof.
  intros H. destruct loc as [l|]; [|by rewrite !Reverse_nil_location].
  rewrite !Reverse_sends, !sent_param_lookup. cbn [values_of reverse_call].
  destruct (decide (k = "latitude")) as [->|Hlat].
  { by rewrite !Set_lookup_eq. }
  rewrite !(Set_lookup_ne _ "latitude") by done.
  destruct (decide (k = "longitude")) as [->|Hlon].
  { by rewrite !Set_lookup_eq. }
  by rewrite !Set_lookup_ne, !marshal_lookup, H.
Qed.

Lemma Forward_nil_sends g place log k :
  sent_by (Forward g place None log) k
  = sent_by (Forward g place (Some ForwardRequestOpts.zero) log) k.
Proof. reflexivity. Qed.

Lemma set_Types_fields s r :
  ForwardRequestOpts.fields (ForwardRequestOpts.set_Types s r)
  = <[2 := Field "types" true (VString s)]> (ForwardRequestOpts.fields r).
Proof. reflexivity. Qed.

Lemma set_Proximity_fields s r :
  ForwardRequestOpts.fields (ForwardRequestOpts.set_Proximity s r)
  = <[1 := Field "proximity" true (VString s)]> (ForwardRequestOpts.fields r).
Proof. reflexivity. Qed.

Lemma set_BBox_fields s r :
  ForwardRequestOpts.fields (ForwardRequestOpts.set_BBox s r)
  = <[4 := Field "bbox" true (VString s)]> (ForwardRequestOpts.fields r).
Proof. reflexivity. Qed.

Lemma set_Permanent_fields b r :
  ForwardRequestOpts.fields (ForwardRequestOpts.set_Permanent b r)
  = <[9 := Field "permanent" true (VBool b)]> (ForwardRequestOpts.fields r).
Proof. reflexivity. Qed.

Lemma Reverse_set_Types_fields s r :
  ReverseRequestOpts.fields (ReverseRequestOpts.set_Types s r)
  = <[0 := Field "types" true (VString s)]> (ReverseRequestOpts.fields r).
Proof. reflexivity. Qed.

(** What a wrapper sends is what [Forward] (resp. [Reverse]) sends for the
    options the wrapper passes on. *)
Lemma ForwardWithTypes_sends g place types req log k :
  let r := default ForwardRequestOpts.zero req in
  sent_by (ForwardWithTypes g place types req log) k
  = sent_by (Forward g place
               (Some (if bool_decide (0 < length types)
                      then ForwardRequestOpts.set_Types (typesToString types) r
                      else r)) log) k.
Proof.
  intros r. destruct req;
    exact (sent_by_returns_with _ (Forward g place (Some _)) log k).
Qed.

Lemma ForwardWithProximity_sends g place proximity req log k :
  let r := default ForwardRequestOpts.zero req in
  sent_by (ForwardWithProximity g place proximity req log) k
  = sent_by (Forward g place
               (Some (if bool_decide (length proximity = 2)
                      then ForwardRequestOpts.set_Proximity
                             (proximityToString proximity) r
                      else r)) log) k.
Proof.
  intros r. destruct req;
    exact (sent_by_returns_with _ (Forward g place (Some _)) log k).
Qed.

Lemma ForwardWithBBox_sends g place bbox req log k :
  let r := default ForwardRequestOpts.zero req in
  sent_by (ForwardWithBBox g place bbox req log) k
  = sent_by (Forward g place
               (Some (if bool_decide (length bbox = 4)
                      then ForwardRequestOpts.set_BBox (bboxToString bbox) r
                      else r)) log) k.
Proof.
  intros r. destruct req;
    exact (sent_by_returns_with _ (Forward g place (Some _)) log k).
Qed.

Lemma ForwardLegacy_sends g place req permanent log k :
  let r := default ForwardRequestOpts.zero req in
  sent_by (ForwardLegacy g place req permanent log) k
  = sent_by (Forward g place
               (Some (if bool_decide (0 < length permanent)
                         && default false (permanent !! 0%nat)
                      then ForwardRequestOpts.set_Permanent true r
                      else r)) log) k.
Proof.
  intros r. destruct req;
    exact (sent_by_returns_with _ (Forward g place (Some _)) log k).
Qed.

Lemma ReverseWithTypes_sends FormatFloat g loc types req log k :
  let r := default ReverseRequestOpts.zero req in
  sent_by (ReverseWithTypes FormatFloat g loc types req log) k
  = sent_by (Reverse FormatFloat g loc
               (Some (if bool_decide (0 < length types)
                      then ReverseRequestOpts.set_Types (typesToString types) r
                      else r)) log) k.
Proof.
  intros r. destruct req;
    exact (sent_by_returns_with _ (Reverse FormatFloat g loc (Some _)) log k).
Qed.

(** X9: A wrapper touches one parameter only: under every other key it sends
    what the primitive sends for the options as they came, whether or not
    the wrapper's argument was usable. *)
Theorem wrappers_leave_other_parameters
  (FormatFloat : float64 -> string) (g : Geocode) (place : string)
  (loc : option base.Location) (types : list Type_)
  (proximity : list float64) (bbox : base.BoundingBox) (permanent : list bool)
  (freq : option ForwardRequestOpts.t) (rreq : option ReverseRequestOpts.t)
  (log : list (base.Call Body)) (k : string) :
  (k <> "types" ->
   sent_by (ForwardWithTypes g place types freq log) k
   = sent_by (Forward g place freq log) k)
  /\ (k <> "proximity" ->
      sent_by (ForwardWithProximity g place proximity freq log) k
      = sent_by (Forward g place freq log) k)
  /\ (k <> "bbox" ->
      sent_by (ForwardWithBBox g place bbox freq log) k
      = sent_by (Forward g place freq log) k)
  /\ (k <> "permanent" ->
      sent_by (ForwardLegacy g place freq permanent log) k
      = sent_by (Forward g place freq log) k)
  /\ (k <> "types" ->
      sent_by (ReverseWithTypes FormatFloat g loc types rreq log) k
      = sent_by (Reverse FormatFloat g loc rreq log) k).
Proof.
  assert (Hnil : sent_by (Forward g place freq log) k
                 = sent_by (Forward g place
                              (Some (default ForwardRequestOpts.zero freq)) log) k)
    by by destruct freq.
  assert (Hrnil : sent_by (Reverse FormatFloat g loc rreq log) k
                  = sent_by (Reverse FormatFloat g loc
                               (Some (default ReverseRequestOpts.zero rreq)) log) k)
    by by destruct rreq.
  repeat match goal with |- _ /\ _ => split end; intros Hk.
  - rewrite Hnil, ForwardWithTypes_sends. cbv zeta.
    case_bool_decide; [|done].
    apply Forward_sends_alike. rewrite set_Types_fields.
    by eapply sent_values_insert; [reflexivity|..].
  - rewrite Hnil, ForwardWithProximity_sends. cbv zeta.
    case_bool_decide; [|done].
    apply Forward_sends_alike. rewrite set_Proximity_fields.
    by eapply sent_values_insert; [reflexivity|..].
  - rewrite Hnil, ForwardWithBBox_sends. cbv zeta.
    case_bool_decide; [|done].
    apply Forward_sends_alike. rewrite set_BBox_fields.
    by eapply sent_values_insert; [reflexivity|..].
  - rewrite Hnil, ForwardLegacy_sends. cbv zeta.
    destruct (bool_decide _ && _); [|done].
    apply Forward_sends_alike. rewrite set_Permanent_fields.
    by eapply sent_values_insert; [reflexivity|..].
  - rewrite Hrnil, ReverseWithTypes_sends. cbv zeta.
    case_bool_decide; [|done].
    apply Reverse_sends_alike. rewrite Reverse_set_Types_fields.
    by eapply sent_values_insert; [reflexivity|..].
Qed.

Lemma Forward_sends_text_field g place r log k s :
  k <> "q" -> Field k true (VString s) ∈ ForwardRequestOpts.fields r ->
  sent_by (Forward g place (Some r) log) k
  = if bool_decide (s = "") then None else Some [s].
Proof.
  intros Hq Hf. rewrite Forward_sends, forward_call_param by done.
  rewrite (marshal_lookup_field _ _ (ForwardRequestOpts_NoDup r) Hf
           : marshal _ !! k = _).
  cbn [omitempty value isEmptyValue valueString andb].
  destruct s; by cbn.
Qed.

Lemma Reverse_sends_text_field FormatFloat g l r log k s :
  k <> "longitude" -> k <> "latitude" ->
  Field k true (VString s) ∈ ReverseRequestOpts.fields r ->
  sent_by (Reverse FormatFloat g (Some l) (Some r) log) k
  = if bool_decide (s = "") then None else Some [s].
Proof.
  intros Hlon Hlat Hf. rewrite Reverse_sends, reverse_call_param by done.
  rewrite (marshal_lookup_field _ _ (ReverseRequestOpts_NoDup r) Hf
           : marshal _ !! k = _).
  cbn [omitempty value isEmptyValue valueString andb].
  destruct s; by cbn.
Qed.

Lemma Join_empty_iff t ts :
  GoStrings.Join (t :: ts) "," = "" <-> t = "" /\ ts = [].
Proof.
  split.
  - destruct ts as [|t' ts]; [by cbn; intros ->|].
    intros H. by destruct t.
  - by intros [-> ->].
Qed.

(** X10: With at least one type, the wrappers send the comma-joined names as
    [types], in place of whatever [Types] the options held; the one
    exception is a single empty name, which removes the parameter. *)
Theorem WithTypes_types_parameter
  (FormatFloat : float64 -> string) (g : Geocode) (place : string)
  (l : base.Location) (t : Type_) (ts : list Type_)
  (freq : option ForwardRequestOpts.t) (rreq : option ReverseRequestOpts.t)
  (log : list (base.Call Body)) :
  let types := if bool_decide (t = "" /\ ts = []) then None
               else Some [GoStrings.Join (t :: ts) ","] in
  sent_by (ForwardWithTypes g place (t :: ts) freq log) "types" = types
  /\ sent_by (ReverseWithTypes FormatFloat g (Some l) (t :: ts) rreq log) "types"
     = types.
Proof.
  intros types.
  assert (Htypes : (if bool_decide (GoStrings.Join (t :: ts) "," = "")
                    then None else Some [GoStrings.Join (t :: ts) ","]) = types).
  { subst types. by rewrite (bool_decide_ext _ _ (Join_empty_iff t ts)). }
  split.
  - rewrite ForwardWithTypes_sends. cbv zeta.
    rewrite bool_decide_true by (cbn; lia). rewrite typesToString_cons.
    rewrite (Forward_sends_text_field _ _ _ _ _ (GoStrings.Join (t :: ts) ","))
      by first [done | repeat constructor].
    exact Htypes.
  - rewrite ReverseWithTypes_sends. cbv zeta.
    rewrite bool_decide_true by (cbn; lia). rewrite typesToString_cons.
    rewrite (Reverse_sends_text_field _ _ _ _ _ _ (GoStrings.Join (t :: ts) ","))
      by first [done | repeat constructor].
    exact Htypes.
Qed.

(** X11: A bounding box of four numbers becomes the [bbox] parameter
    ["w,s,e,n"], each number in the [%f] form, in place of whatever [BBox]
    the options held: the wrapper is [Forward] on the options so changed. *)
Theorem WithBBox_as_manual_text
  (g : Geocode) (place : string) (w s e n : float64)
  (req : option ForwardRequestOpts.t) (log : list (base.Call Body)) :
  let text := GoFmt.Sprintf_f w +:+ "," +:+ GoFmt.Sprintf_f s +:+ ","
              +:+ GoFmt.Sprintf_f e +:+ "," +:+ GoFmt.Sprintf_f n in
  let req' := ForwardRequestOpts.set_BBox
                text (default ForwardRequestOpts.zero req) in
  ForwardWithBBox g place [w; s; e; n] req log
  = returns_with req' (Forward g place (Some req')) log
  /\ sent_by (ForwardWithBBox g place [w; s; e; n] req log) "bbox" = Some [text].
Proof.
  intros text req'.
  assert (Heq : ForwardWithBBox g place [w; s; e; n] req log
                = returns_with req' (Forward g place (Some req')) log)
    by by destruct req.
  split; [done|].
  rewrite Heq, sent_by_returns_with.
  rewrite (Forward_sends_text_field _ _ _ _ _ text)
    by first [done | repeat constructor].
  rewrite bool_decide_false; [done|]. apply with_comma_nonempty.
Qed.

(** X12: [ForwardLegacy] can only switch [permanent] on: the parameter is sent
    when the first variadic flag is true or the options already had it, and
    a false flag does not clear it; flags after the first are ignored, and
    no flag at all is the same as one false flag. *)
Theorem ForwardLegacy_permanent_flag
  (g : Geocode) (place : string) (req : option ForwardRequestOpts.t)
  (flag : bool) (more : list bool) (log : list (base.Call Body)) :
  sent_by (ForwardLegacy g place req (flag :: more) log) "permanent"
  = (if flag || ForwardRequestOpts.Permanent (default ForwardRequestOpts.zero req)
     then Some ["true"] else None)
  /\ ForwardLegacy g place req (flag :: more) log
     = ForwardLegacy g place req [flag] log
  /\ ForwardLegacy g place req [] log = ForwardLegacy g place req [false] log.
Proof.
  split; [|split; reflexivity].
  rewrite ForwardLegacy_sends. cbv zeta.
  rewrite bool_decide_true by (cbn; lia). cbn [andb lookup list_lookup default].
  rewrite Forward_sends, forward_call_param by done.
  destruct flag; cbn [orb].
  - by rewrite (bool_field_sent _ _ true)
      by first [apply ForwardRequestOpts_NoDup | repeat constructor].
  - rewrite (bool_field_sent _ _
               (ForwardRequestOpts.Permanent (default ForwardRequestOpts.zero req)))
      by first [apply ForwardRequestOpts_NoDup | repeat constructor].
    by destruct (ForwardRequestOpts.Permanent _).
Qed.

Lemma struct_after_returns_with {Opts Resp} (r : Opts)
  (m : IO (option Resp * option error)) log :
  returned (m log) -> struct_after (returns_with r m log) = Some r.
Proof.
  unfold returned, struct_after, returns_with, base.bind.
  by destruct (m log) as [[a|why] log'].
Qed.

Lemma Forward_returned g place req log : returned (Forward g place req log).
Proof. by rewrite Forward_unfold. Qed.

(** X13: The wrappers write through the options pointer: after the call the
    caller's struct holds the text the wrapper computed, so a later plain
    [Forward] with the same struct still sends the types the wrapper set,
    and a later [ForwardWithTypes] without types does too. *)
Theorem wrappers_write_through_options
  (g : Geocode) (place place' : string) (t : Type_) (ts : list Type_)
  (lon lat w s e n : float64) (r : ForwardRequestOpts.t)
  (log log' : list (base.Call Body)) :
  let r' := ForwardRequestOpts.set_Types (GoStrings.Join (t :: ts) ",") r in
  struct_after (ForwardWithTypes g place (t :: ts) (Some r) log) = Some r'
  /\ struct_after (ForwardWithProximity g place [lon; lat] (Some r) log)
     = Some (ForwardRequestOpts.set_Proximity (proximityToString [lon; lat]) r)
  /\ struct_after (ForwardWithBBox g place [w; s; e; n] (Some r) log)
     = Some (ForwardRequestOpts.set_BBox (bboxToString [w; s; e; n]) r)
  /\ struct_after (ForwardLegacy g place (Some r) [true] log)
     = Some (ForwardRequestOpts.set_Permanent true r)
  /\ sent_by (Forward g place' (Some r') log') "types"
     = sent_by (ForwardWithTypes g place (t :: ts) (Some r) log) "types"
  /\ sent_by (ForwardWithTypes g place' [] (Some r') log') "types"
     = sent_by (ForwardWithTypes g place (t :: ts) (Some r) log) "types".
Proof.
  intros r'. subst r'.
  repeat match goal with |- _ /\ _ => split end.
  - rewrite <- typesToString_cons.
    apply (struct_after_returns_with _ (Forward g place (Some _))),
      Forward_returned.
  - apply (struct_after_returns_with _ (Forward g place (Some _))),
      Forward_returned.
  - apply (struct_after_returns_with _ (Forward g place (Some _))),
      Forward_returned.
  - apply (struct_after_returns_with _ (Forward g place (Some _))),
      Forward_returned.
  - rewrite ForwardWithTypes_sends. cbv zeta.
    rewrite bool_decide_true by (cbn; lia). rewrite typesToString_cons.
    by rewrite !(Forward_sends_text_field _ _ _ _ _ (GoStrings.Join (t :: ts) ","))
      by first [done | repeat constructor].
  - rewrite !ForwardWithTypes_sends. cbv zeta.
    rewrite (bool_decide_true (0 < length (t :: ts))) by (cbn; lia).
    rewrite (bool_decide_false (0 < length (@nil string))) by (cbn; lia).
    rewrite typesToString_cons.
    by rewrite !(Forward_sends_text_field _ _ _ _ _ (GoStrings.Join (t :: ts) ","))
      by first [done | repeat constructor].
Qed.

(** ** The texts the helpers build *)

Lemma typesToString_nil : typesToString [] = "".
Proof. reflexivity. Qed.

Lemma typesToString_cuts_back (types : list Type_) :
  Forall (fun t => t <> "" /\ ContainsByte t "," = false) types ->
  pieces (typesToString types) "," = types.
Proof.
  intros H. destruct types as [|t ts]; [done|].
  rewrite typesToString_cons. by apply pieces_Join.
Qed.

Lemma declared_types_plain :
  Forall (fun t => t <> "" /\ ContainsByte t "," = false) declared_types.
Proof. repeat constructor; done. Qed.

(** X14: For the declared type constants, in any number and order, the text
    [typesToString] builds cuts back at its commas into the very names it
    was built from; so no two lists of declared types give the same text. *)
Theorem typesToString_of_declared_types (types types' : list Type_) :
  Forall (fun t => t ∈ declared_types) types ->
  Forall (fun t => t ∈ declared_types) types' ->
  pieces (typesToString types) "," = types
  /\ (typesToString types = typesToString types' -> types = types').
Proof.
  assert (Hplain : forall l : list string,
             Forall (fun t => t ∈ declared_types) l ->
             Forall (fun t => t <> "" /\ ContainsByte t "," = false) l).
  { intros l Hl. eapply Forall_impl; [exact Hl|]. intros t Ht.
    by apply (proj1 (Forall_forall _ _) declared_types_plain). }
  intros H H'. split; [by apply typesToString_cuts_back, Hplain|].
  intros Heq.
  rewrite <- (typesToString_cuts_back types), <- (typesToString_cuts_back types')
    by by apply Hplain.
  by rewrite Heq.
Qed.

Lemma typesToString_of_declared_types_witness :
  pieces (typesToString [Address; Place]) "," = [Address; Place]
  /\ (typesToString [Address; Place] = typesToString [Address; Place] ->
      [Address; Place] = [Address; Place]).
Proof.
  apply (typesToString_of_declared_types [Address; Place] [Address; Place]);
    decide_it.
Defined.

(** Outside the declared constants the text is ambiguous: a name with a
    comma reads as two names. *)
Example typesToString_ambiguous :
  typesToString ["address,place"] = typesToString [Address; Place].
Proof. reflexivity. Qed.

(** X15: The result of [proximityToString] is empty exactly for a slice whose
    length is not 2, that of [bboxToString] exactly for a box whose length
    is not 4: the empty text is an unmistakable sign of a bad argument. *)
Theorem coordinate_texts_empty_iff_bad_length
  (proximity : list float64) (bbox : base.BoundingBox) :
  (proximityToString proximity = "" <-> length proximity <> 2)
  /\ (bboxToString bbox = "" <-> length bbox <> 4).
Proof.
  split.
  - destruct proximity as [|p0 [|p1 [|p2 ps]]]; cbn; try (split; [lia|done]).
    split; [|lia]. intros H. by apply with_comma_nonempty in H.
  - destruct bbox as [|b0 [|b1 [|b2 [|b3 [|b4 bs]]]]]; cbn;
      try (split; [lia|done]).
    split; [|lia]. intros H. by apply with_comma_nonempty in H.
Qed.

(** *** The [%f] form holds no comma *)

Lemma pretty_N_char_no_comma d : Ascii.eqb (pretty_N_char d) "," = false.
Proof. unfold pretty_N_char. by repeat case_match. Qed.

Lemma pretty_N_go_no_comma x s :
  ContainsByte s "," = false -> ContainsByte (pretty_N_go x s) "," = false.
Proof.
  revert s. induction (N.lt_wf_0 x) as [x _ IH]; intros s Hs.
  assert (x = 0 \/ 0 < x)%N as [->|Hx] by lia.
  - by rewrite pretty_N_go_0.
  - rewrite pretty_N_go_step by done. apply IH.
    + by apply N.div_lt.
    + cbn [ContainsByte]. by rewrite pretty_N_char_no_comma, Hs.
Qed.

Lemma pretty_N_no_comma (n : N) : ContainsByte (pretty n) "," = false.
Proof.
  unfold pretty, pretty_N. case_decide; [done|].
  by apply pretty_N_go_no_comma.
Qed.

Lemma zeros_no_comma k :
  ContainsByte (String.concat "" (replicate k "0")) "," = false.
Proof.
  induction k as [|k IH]; [done|].
  destruct k as [|k]; [done|].
  change (ContainsByte ("0" +:+ "" +:+ String.concat "" (replicate (S k) "0")) ","
          = false).
  by rewrite !ContainsByte_app, IH.
Qed.

Lemma pad6_no_comma n : ContainsByte (GoFmt.pad6 n) "," = false.
Proof.
  unfold GoFmt.pad6. by rewrite ContainsByte_app, zeros_no_comma, pretty_N_no_comma.
Qed.

Lemma Sprintf_f_no_comma x : ContainsByte (GoFmt.Sprintf_f x) "," = false.
Proof.
  unfold GoFmt.Sprintf_f.
  destruct (Prim2SF x) as [[]|[]| |sign m e]; try done.
  rewrite !ContainsByte_app, pretty_N_no_comma, pad6_no_comma.
  by destruct sign.
Qed.

Lemma Sprintf_f_nonempty x : GoFmt.Sprintf_f x <> "".
Proof.
  unfold GoFmt.Sprintf_f.
  destruct (Prim2SF x) as [[]|[]| |[] m e]; try done.
  destruct (pretty _); done.
Qed.

(** X16: The texts of [proximityToString] and [bboxToString] cut back at their
    commas into the two, resp. four, numbers they were built from, each in
    its [%f] form: whatever the numbers (infinities and NaN included), no
    comma comes from a number. *)
Theorem coordinate_texts_cut_back (lon lat w s e n : float64) :
  Cut (proximityToString [lon; lat]) ","
  = (GoFmt.Sprintf_f lon, GoFmt.Sprintf_f lat, true)
  /\ pieces (proximityToString [lon; lat]) ","
     = [GoFmt.Sprintf_f lon; GoFmt.Sprintf_f lat]
  /\ pieces (bboxToString [w; s; e; n]) ","
     = [GoFmt.Sprintf_f w; GoFmt.Sprintf_f s; GoFmt.Sprintf_f e; GoFmt.Sprintf_f n].
Proof.
  split; [apply Cut_at_first, Sprintf_f_no_comma|].
  split.
  - apply (pieces_Join [_; _] ",").
    repeat constructor; first [apply Sprintf_f_nonempty | apply Sprintf_f_no_comma].
  - apply (pieces_Join [_; _; _; _] ",").
    repeat constructor; first [apply Sprintf_f_nonempty | apply Sprintf_f_no_comma].
Qed.

(** ** The example program and the subtests *)

(** X17: The example program stops with "MAPBOX_TOKEN environment variable is
    required" exactly when the variable is unset or empty; otherwise it gets
    a geocoding client that holds the token; either way it has made no call
    yet. *)
Theorem main_client_stops_iff_no_token
  (net : base.Transport Body) (env : gmap string string)
  (log : list (base.Call Body)) :
  let token := example.Getenv env "MAPBOX_TOKEN" in
  (example.main_client net env log
   = (Returned (inl "MAPBOX_TOKEN environment variable is required"), log)
   <-> env !! "MAPBOX_TOKEN" = None \/ env !! "MAPBOX_TOKEN" = Some "")
  /\ (token <> "" ->
      example.main_client net env log
      = (Returned (inr (NewGeocode {| base.token := token;
                                      base.transport := net |})), log)).
Proof.
  intros token.
  assert (Hrun : token <> "" ->
                 example.main_client net env log
                 = (Returned (inr (NewGeocode {| base.token := token;
                                                 base.transport := net |})), log)).
  { intros Hne. unfold example.main_client, base.NewBase. fold token.
    by rewrite !bool_decide_false by done. }
  split; [|exact Hrun]. split.
  - intros Hstop. destruct (decide (token = "")) as [Hempty|Hne].
    + unfold token, example.Getenv in Hempty.
      destruct (env !! "MAPBOX_TOKEN") as [tok|]; [right|by left].
      cbn in Hempty. by rewrite Hempty.
    + rewrite (Hrun Hne) in Hstop. discriminate Hstop.
  - apply main_client_without_token.
Qed.

Lemma checks_log res err log : (geocode_test.checks res err log).2 = log.
Proof. unfold geocode_test.checks. by destruct res as [[fc|]|]. Qed.

Lemma checks_pass_iff res err log :
  passes (geocode_test.checks res err log)
  <-> err = None
      /\ exists fc, res = Some (Some fc)
                   /\ base.Type_ fc = "FeatureCollection"
                   /\ base.Features fc <> [].
Proof.
  unfold passes, geocode_test.checks.
  destruct res as [[fc|]|];
    [|split; [done|by intros (_ & fc & ? & _)]..].
  cbn [fst base.ret].
  assert (Hlen : length (base.Features fc) = 0 <-> base.Features fc = [])
    by (by destruct (base.Features fc)).
  split.
  - intros H. injection H as H.
    destruct (decide (length (base.Features fc) = 0)) as [Hz|Hnz].
    { rewrite (bool_decide_true _ Hz) in H. by apply app_eq_nil in H as [_ ?]. }
    rewrite (bool_decide_false _ Hnz) in H.
    destruct (decide (base.Type_ fc <> "FeatureCollection")) as [Ht|Ht].
    { rewrite (bool_decide_true _ Ht) in H. by apply app_eq_nil in H as [_ ?]. }
    rewrite (bool_decide_false _ Ht) in H.
    destruct err as [e|]; [done|].
    split; [done|]. exists fc. split; [done|].
    split; [by apply dec_stable|]. by rewrite <- Hlen.
  - intros (-> & fc' & [= <-] & Htype & Hfeat).
    rewrite (bool_decide_false (base.Type_ fc <> _)) by (by intros ?).
    rewrite bool_decide_false; [done|]. by rewrite Hlen.
Qed.

(** X18: A subtest passes exactly when the answer to its one call has no error,
    a collection tagged "FeatureCollection" and at least one feature. None
    of the four looks at the number of features beyond that, although each
    asks for [Limit = 1]. *)
Theorem subtests_pass_iff_answer_acceptable
  (FormatFloat : float64 -> string) (g : Geocode) (log : list (base.Call Body)) :
  let judged (o : result (list string) * list (base.Call Body)) :=
    exists c, o.2 = log ++ [c]
              /\ (passes o <-> acceptable (base.transport (base_ g) log c)) in
  judged (geocode_test.Can_geocode g log)
  /\ judged (geocode_test.Can_reverse_geocode FormatFloat g log)
  /\ judged (geocode_test.Can_use_structured_input g log)
  /\ judged (geocode_test.Can_use_permanent_geocoding g log).
Proof.
  intros judged. subst judged. cbv beta.
  assert (Hany : forall c (wrap : option base.FeatureCollection -> _),
             wrap = Some ->
             let answer := base.transport (base_ g) log c in
             passes (geocode_test.checks (wrap (base.collection answer))
                       (base.err answer) (log ++ [c]))
             <-> acceptable answer).
  { intros c wrap -> answer. rewrite checks_pass_iff. unfold acceptable.
    split; intros (? & fc & H & ?); (split; [done|]); exists fc;
      (split; [congruence|done]). }
  repeat match goal with |- _ /\ _ => split end.
  - unfold geocode_test.Can_geocode, base.bind. rewrite Forward_unfold.
    eexists. split; [apply checks_log|]. by apply Hany.
  - unfold geocode_test.Can_reverse_geocode, base.bind. rewrite Reverse_unfold.
    eexists. split; [apply checks_log|]. by apply Hany.
  - unfold geocode_test.Can_use_structured_input, base.bind.
    rewrite ForwardStructured_unfold.
    eexists. split; [apply checks_log|]. by apply Hany.
  - unfold geocode_test.Can_use_permanent_geocoding, base.bind.
    rewrite Forward_unfold.
    eexists. split; [apply checks_log|]. by apply Hany.
Qed.

Example Can_geocode_passes_with_two_features :
  passes (geocode_test.Can_geocode (client fixed_net) [])
  /\ length (features_of (Forward (client fixed_net) "2 lincoln memorial circle nw"
                             (Some example.limit_1_opts) [])) = 2.
Proof. split; reflexivity. Qed.

(** X19: When the calls of the client decode no collection, as when every call
    fails, no subtest gets to report the error it recorded: each panics on
    reading the type tag through the nil collection pointer, after its one
    call. *)
Theorem subtests_panic_without_collection
  (FormatFloat : float64 -> string) (g : Geocode) (log : list (base.Call Body)) :
  (forall log c, base.collection (base.transport (base_ g) log c) = None) ->
  let panicked (o : result (list string) * list (base.Call Body)) :=
    o.1 = Panicked "nil pointer dereference" /\ exists c, o.2 = log ++ [c] in
  panicked (geocode_test.Can_geocode g log)
  /\ panicked (geocode_test.Can_reverse_geocode FormatFloat g log)
  /\ panicked (geocode_test.Can_use_structured_input g log)
  /\ panicked (geocode_test.Can_use_permanent_geocoding g log).
Proof.
  intros Hnone panicked. subst panicked. cbv beta.
  split; [|split; [|split]].
  - unfold geocode_test.Can_geocode, base.bind.
    rewrite Forward_unfold, Hnone. split; [done|by eexists].
  - unfold geocode_test.Can_reverse_geocode, base.bind.
    rewrite Reverse_unfold, Hnone. split; [done|by eexists].
  - unfold geocode_test.Can_use_structured_input, base.bind.
    rewrite ForwardStructured_unfold, Hnone. split; [done|by eexists].
  - unfold geocode_test.Can_use_permanent_geocoding, base.bind.
    rewrite Forward_unfold, Hnone. split; [done|by eexists].
Qed.

Lemma subtests_panic_without_collection_witness :
  let g := client failing_net in
  let panicked (o : result (list string) * list (base.Call Body)) :=
    o.1 = Panicked "nil pointer dereference" /\ exists c, o.2 = [] ++ [c] in
  panicked (geocode_test.Can_geocode g [])
  /\ panicked (geocode_test.Can_reverse_geocode GoFmt.Sprintf_f g [])
  /\ panicked (geocode_test.Can_use_structured_input g [])
  /\ panicked (geocode_test.Can_use_permanent_geocoding g []).
Proof.
  apply (subtests_panic_without_collection GoFmt.Sprintf_f (client failing_net) []).
  reflexivity.
Defined.

(** ** The Go library models on the data of the example program *)

Example Sprintf_f_central_park_lon :
  GoFmt.Sprintf_f (-73.968285)%float = "-73.968285".
Proof. vm_compute. reflexivity. Qed.

Example Sprintf_f_central_park_lat :
  GoFmt.Sprintf_f (40.785091)%float = "40.785091".
Proof. vm_compute. reflexivity. Qed.

Example Sprintf_f_short : GoFmt.Sprintf_f (1.5)%float = "1.500000".
Proof. vm_compute. reflexivity. Qed.

Example Sprintf_f_tie : GoFmt.Sprintf_f (0.0000005)%float = "0.000000".
Proof. vm_compute. reflexivity. Qed.

Example Sprintf_f_big : GoFmt.Sprintf_f (1e22)%float = "10000000000000000000000.000000".
Proof. vm_compute. reflexivity. Qed.

Example Encode_sorted :
  url.Encode (url.Set_ (url.Add (url.Add ∅ "types" "address,place") "limit" "1")
                       "q" "Central Park")
  = "limit=1&q=Central+Park&types=address%2Cplace".
Proof. vm_compute. reflexivity. Qed.

Example ParseQuery_back :
  url.ParseQuery "limit=1&q=Central+Park&types=address%2Cplace"
  = (url.Set_ (url.Add (url.Add ∅ "types" "address,place") "limit" "1")
              "q" "Central Park", None).
Proof. vm_compute. reflexivity. Qed.
